(** * JustiFi payment add-ons for Odoo: a shallow embedding

    The development follows the layout of the repository:

    - [Py]        the Python data the add-ons handle: JSON values, dicts,
                  truth testing, exceptions;
    - [Const]     [payment_justifi/const.py];
    - [Codec]     the pieces of the Python standard library the webhook
                  check and the terminal call rely on: UTF-8, SHA-256, HMAC,
                  [compare_digest], [uuid.uuid4];
    - [Host]      what Odoo and [requests] provide (records, [search],
                  [requests.post], the transaction state setters, entropy)
                  and the state-and-error monad the add-ons run in;
    - [Provider]  [payment_justifi/models/payment_provider.py];
    - [Transaction] [payment_justifi/models/payment_transaction.py];
    - [Webhook]   [payment_justifi/controllers/main.py];
    - [PosModel], [PosController] the two files of [pos_payment_justifi];
    - [Spec], [Samples] the vocabulary of the statements and sample hosts.

    The statements and their proofs come after the definitions. *)

From Stdlib Require Import ZArith Lia List.
From Stdlib.Strings Require Import Byte.
From stdpp Require Import gmap strings list fin_maps.

Local Set Warnings "-register-all".
Local Open Scope Z_scope.

(* ===================================================================== *)
(** * Python values, exceptions and the execution monad *)
(* ===================================================================== *)

Module Py.

(** A value decoded from JSON (or built by the code from literals).  JSON
    numbers are kept as integers. *)
Inductive pyval : Type :=
| PNone
| PBool (b : bool)
| PInt (n : Z)
| PStr (s : string)
| PList (l : list pyval)
| PDict (d : gmap string pyval).

(** Python truth value testing: [if v:], [not v], [a or b]. *)
Definition truthy (v : pyval) : bool :=
  match v with
  | PNone => false
  | PBool b => b
  | PInt n => negb (n =? 0)
  | PStr s => negb (String.eqb s "")
  | PList l => match l with [] => false | _ => true end
  | PDict d => match map_to_list d with [] => false | _ => true end
  end.

(** [a or b]: [b] is evaluated only when [a] is falsy. *)
Definition py_or (a b : pyval) : pyval := if truthy a then a else b.

(** [type(v).__name__], as it appears in an [AttributeError] message. *)
Definition type_name (v : pyval) : string :=
  match v with
  | PNone => "NoneType"
  | PBool _ => "bool"
  | PInt _ => "int"
  | PStr _ => "str"
  | PList _ => "list"
  | PDict _ => "dict"
  end.

(** [v == 'literal'] for a string literal. *)
Definition eq_str (v : pyval) (s : string) : bool :=
  match v with
  | PStr t => String.eqb t s
  | _ => false
  end.

(** An Odoo [Char] field read from a record: [False] when unset. *)
Definition char_field (f : option string) : pyval :=
  match f with
  | Some s => PStr s
  | None => PBool false
  end.

(** The exceptions the add-ons raise or let through. *)
Inductive exn : Type :=
| ValidationError (msg : string)
| AttributeError (ty attr : string)  (* 'ty' object has no attribute 'attr' *)
| TypeError (msg : string)
| UnicodeDecodeError
| UnicodeEncodeError
| JSONDecodeError (msg : string)
| RequestException (msg : string)
| PlainException (arg : pyval).        (* raise Exception(arg) *)

Definition is_ValidationError (e : exn) : bool :=
  match e with ValidationError _ => true | _ => false end.

Definition is_RequestException (e : exn) : bool :=
  match e with RequestException _ => true | _ => false end.

(** The outcome of a call: a value or a raised exception. *)
Inductive res (A : Type) : Type :=
| Ret (a : A)
| Raise (e : exn).
Arguments Ret {A} a.
Arguments Raise {A} e.

(** [v.get(k, dflt)]: only a dict has a [get]. *)
Definition py_get (v : pyval) (k : string) (dflt : pyval) : res pyval :=
  match v with
  | PDict d => Ret (default dflt (d !! k))
  | _ => Raise (AttributeError (type_name v) "get")
  end.

(** [d.get(k, dflt)] on something known to be a dict. *)
Definition dict_get (d : gmap string pyval) (k : string) (dflt : pyval) : pyval :=
  default dflt (d !! k).

End Py.
Export Py.

(* ===================================================================== *)
(** * payment_justifi/const.py *)
(* ===================================================================== *)

Module Const.

Definition API_BASE_URL : string := "https://api.justifi.ai".
Definition OAUTH_TOKEN_URL : string := API_BASE_URL +:+ "/oauth/token".
Definition CHECKOUTS_URL : string := API_BASE_URL +:+ "/v1/checkouts".
Definition WEB_COMPONENT_TOKEN_URL : string := API_BASE_URL +:+ "/v1/web_component_tokens".

(** The items of the dict literal, in source order. *)
Definition STATUS_MAPPING_items : list (string * string) :=
  [ ("completed", "done");
    ("succeeded", "done");
    ("pending", "pending");
    ("created", "pending");
    ("failed", "error");
    ("canceled", "cancel") ].

Definition STATUS_MAPPING : gmap string string :=
  list_to_map STATUS_MAPPING_items.

(** The four Odoo transaction states the table maps to. *)
Definition local_states : gset string :=
  {[ "done"; "pending"; "error"; "cancel" ]}.

End Const.
Export Const.

(* ===================================================================== *)
(** * Standard-library codecs used by the webhook check and the terminal call *)
(* ===================================================================== *)

Module Codec.

(** A Python [str] whose characters matter is a list of code points; a
    [bytes] object is a list of bytes. *)
Definition pystr : Type := list Z.

Definition byte_z (b : byte) : Z := Z.of_N (Byte.to_N b).
Definition z_byte (z : Z) : byte := default x00 (Byte.of_N (Z.to_N z)).

Definition in_range (lo hi z : Z) : bool := (lo <=? z) && (z <=? hi).

(** ** UTF-8 *)

(** [bytes.decode('utf-8')] with the default strict error handler: [None]
    stands for [UnicodeDecodeError].  Overlong forms, surrogates and values
    above U+10FFFF are rejected, as CPython does; the shifts and masks of
    the C decoder are written as multiplications and differences. *)
Fixpoint utf8_decode (bs : list byte) : option pystr :=
  match bs with
  | [] => Some []
  | b0 :: r0 =>
    let x0 := byte_z b0 in
    if x0 <? 0x80 then cons x0 <$> utf8_decode r0
    else if in_range 0xC2 0xDF x0 then
      match r0 with
      | b1 :: r1 =>
        let x1 := byte_z b1 in
        if in_range 0x80 0xBF x1
        then cons ((x0 - 0xC0) * 64 + (x1 - 0x80)) <$> utf8_decode r1
        else None
      | _ => None
      end
    else if in_range 0xE0 0xEF x0 then
      match r0 with
      | b1 :: b2 :: r2 =>
        let x1 := byte_z b1 in
        let x2 := byte_z b2 in
        if in_range (if x0 =? 0xE0 then 0xA0 else 0x80)
                    (if x0 =? 0xED then 0x9F else 0xBF) x1
           && in_range 0x80 0xBF x2
        then cons ((x0 - 0xE0) * 4096 + (x1 - 0x80) * 64 + (x2 - 0x80))
               <$> utf8_decode r2
        else None
      | _ => None
      end
    else if in_range 0xF0 0xF4 x0 then
      match r0 with
      | b1 :: b2 :: b3 :: r3 =>
        let x1 := byte_z b1 in
        let x2 := byte_z b2 in
        let x3 := byte_z b3 in
        if in_range (if x0 =? 0xF0 then 0x90 else 0x80)
                    (if x0 =? 0xF4 then 0x8F else 0xBF) x1
           && in_range 0x80 0xBF x2 && in_range 0x80 0xBF x3
        then cons ((x0 - 0xF0) * 262144 + (x1 - 0x80) * 4096
                   + (x2 - 0x80) * 64 + (x3 - 0x80))
               <$> utf8_decode r3
        else None
      | _ => None
      end
    else None
  end.

(** One code point of [str.encode('utf-8')]; [None] stands for
    [UnicodeEncodeError] (a lone surrogate). *)
Definition utf8_encode_cp (c : Z) : option (list byte) :=
  if in_range 0 0x7F c then Some [z_byte c]
  else if in_range 0x80 0x7FF c then
    Some [z_byte (0xC0 + c / 64); z_byte (0x80 + c mod 64)]
  else if in_range 0x800 0xFFFF c then
    if in_range 0xD800 0xDFFF c then None
    else Some [z_byte (0xE0 + c / 4096); z_byte (0x80 + (c / 64) mod 64);
               z_byte (0x80 + c mod 64)]
  else if in_range 0x10000 0x10FFFF c then
    Some [z_byte (0xF0 + c / 262144); z_byte (0x80 + (c / 4096) mod 64);
          z_byte (0x80 + (c / 64) mod 64); z_byte (0x80 + c mod 64)]
  else None.

Fixpoint utf8_encode (s : pystr) : option (list byte) :=
  match s with
  | [] => Some []
  | c :: r =>
    match utf8_encode_cp c, utf8_encode r with
    | Some a, Some b => Some (a ++ b)
    | _, _ => None
    end
  end.

Definition str_encode (s : pystr) : res (list byte) :=
  match utf8_encode s with
  | Some b => Ret b
  | None => Raise UnicodeEncodeError
  end.

Definition bytes_decode (b : list byte) : res pystr :=
  match utf8_decode b with
  | Some s => Ret s
  | None => Raise UnicodeDecodeError
  end.

(** The code points of an ASCII literal. *)
Fixpoint str_of_string (s : string) : pystr :=
  match s with
  | EmptyString => []
  | String c r => Z.of_N (Ascii.N_of_ascii c) :: str_of_string r
  end.

(** ** SHA-256 (FIPS 180-4), on 32-bit words held in [Z] *)

Definition mask32 : Z := 0xFFFFFFFF.
Definition add32 (a b : Z) : Z := Z.land (a + b) mask32.
Definition rotr (n x : Z) : Z :=
  Z.lor (Z.shiftr x n) (Z.land (Z.shiftl x (32 - n)) mask32).
Definition shr (n x : Z) : Z := Z.shiftr x n.
Definition xor3 (a b c : Z) : Z := Z.lxor (Z.lxor a b) c.

Definition Ch (x y z : Z) : Z :=
  Z.lxor (Z.land x y) (Z.land (Z.lxor x mask32) z).
Definition Maj (x y z : Z) : Z :=
  xor3 (Z.land x y) (Z.land x z) (Z.land y z).
Definition Sigma0 (x : Z) : Z := xor3 (rotr 2 x) (rotr 13 x) (rotr 22 x).
Definition Sigma1 (x : Z) : Z := xor3 (rotr 6 x) (rotr 11 x) (rotr 25 x).
Definition sigma0 (x : Z) : Z := xor3 (rotr 7 x) (rotr 18 x) (shr 3 x).
Definition sigma1 (x : Z) : Z := xor3 (rotr 17 x) (rotr 19 x) (shr 10 x).

(** The constants are derived as the standard defines them: the first 32
    bits of the fractional parts of the cube roots (round constants) and of
    the square roots (initial hash value) of the first primes. *)
Definition is_prime (n : Z) : bool :=
  forallb (fun d => negb (n mod Z.of_nat d =? 0)) (seq 2 (Z.to_nat n - 2)).

Definition first_primes (count : nat) : list Z :=
  take count (List.filter is_prime (map Z.of_nat (seq 2 310))).

(** The integer cube root of [x], found bit by bit from bit [n - 1] down. *)
Fixpoint cube_root_bits (n : nat) (x r : Z) : Z :=
  match n with
  | O => r
  | S k =>
    let c := r + 2 ^ Z.of_nat k in
    if c * c * c <=? x then cube_root_bits k x c else cube_root_bits k x r
  end.

Definition K256 : list Z :=
  Eval vm_compute in
    map (fun p => Z.land (cube_root_bits 40 (p * 2 ^ 96) 0) mask32) (first_primes 64).

Definition H256 : list Z :=
  Eval vm_compute in
    map (fun p => Z.land (Z.sqrt (p * 2 ^ 64)) mask32) (first_primes 8).

(** Big-endian bytes of a number, [n] of them. *)
Fixpoint be_bytes (n : nat) (x : Z) : list Z :=
  match n with
  | O => []
  | S n' => be_bytes n' (x / 256) ++ [x mod 256]
  end.

Definition be_word (bs : list Z) : Z :=
  fold_left (fun acc b => acc * 256 + b) bs 0.

(** Message padding: a 1 bit, zeros up to 56 mod 64, the bit length on 64 bits. *)
Definition sha_pad (msg : list byte) : list Z :=
  let l := Z.of_nat (length msg) in
  map byte_z msg ++ [0x80] ++ repeat 0 (Z.to_nat ((55 - l) mod 64))
    ++ be_bytes 8 (8 * l).

(** Cut a list into chunks of [n] elements ([fuel] bounds the number of chunks). *)
Fixpoint chunks {A} (fuel n : nat) (l : list A) : list (list A) :=
  match fuel with
  | O => []
  | S f =>
    match l with
    | [] => []
    | _ => take n l :: chunks f n (drop n l)
    end
  end.

(** Message schedule: the words are kept most recent first while extending. *)
Fixpoint schedule (n : nat) (w : list Z) : list Z :=
  match n with
  | O => w
  | S n' =>
    let new := add32 (add32 (sigma1 (nth 1 w 0)) (nth 6 w 0))
                     (add32 (sigma0 (nth 14 w 0)) (nth 15 w 0)) in
    schedule n' (new :: w)
  end.

Definition sha_round (st : list Z) (kw : Z * Z) : list Z :=
  match st with
  | [a; b; c; d; e; f; g; h] =>
    let t1 := add32 (add32 (add32 h (Sigma1 e)) (add32 (Ch e f g) (fst kw))) (snd kw) in
    let t2 := add32 (Sigma0 a) (Maj a b c) in
    [add32 t1 t2; a; b; c; add32 d t1; e; f; g]
  | _ => st
  end.

Definition sha_block (h : list Z) (block : list Z) : list Z :=
  let w16 := map be_word (chunks 16 4 block) in
  let w := rev (schedule 48 (rev w16)) in
  let st := fold_left sha_round (combine K256 w) h in
  map (fun p => add32 (fst p) (snd p)) (combine h st).

Definition sha256 (msg : list byte) : list byte :=
  let padded := sha_pad msg in
  let h := fold_left sha_block (chunks (length padded) 64 padded) H256 in
  map z_byte (concat (map (be_bytes 4) h)).

(** ** HMAC (RFC 2104) with SHA-256: [hmac.new(key, msg, hashlib.sha256)] *)

Definition xor_byte (c : Z) (b : byte) : byte := z_byte (Z.lxor (byte_z b) c).

Definition hmac_sha256 (key msg : list byte) : list byte :=
  let k0 := if (64 <? length key)%nat then sha256 key else key in
  let k := k0 ++ repeat x00 (64 - length k0) in
  sha256 (map (xor_byte 0x5c) k ++ sha256 (map (xor_byte 0x36) k ++ msg)).

(** ** Hexadecimal *)

Definition hex_digit (n : Z) : Ascii.ascii :=
  Ascii.ascii_of_N (Z.to_N (if n <? 10 then 48 + n else 87 + n)).

Fixpoint hex_of_bytes (bs : list byte) : string :=
  match bs with
  | [] => EmptyString
  | b :: r =>
    String (hex_digit (byte_z b / 16)) (String (hex_digit (byte_z b mod 16)) (hex_of_bytes r))
  end.

(** [.hexdigest()] *)
Definition hexdigest (d : list byte) : pystr := str_of_string (hex_of_bytes d).

(** ** [hmac.compare_digest] on two [str] arguments

    The comparison takes time independent of where the arguments differ;
    its value is their equality.  A [str] argument with a character outside
    ASCII is refused with [TypeError]. *)
Definition is_ascii (s : pystr) : bool := forallb (in_range 0 127) s.

Definition compare_digest (a b : pystr) : res bool :=
  if is_ascii a && is_ascii b
  then Ret (bool_decide (a = b))
  else Raise (TypeError "comparing strings with non-ASCII characters is not supported").

(** ** [uuid.uuid4]: [UUID(bytes=os.urandom(16), version=4)] *)

Definition uuid_of_random (r : Z) : Z :=
  let i := r mod 2 ^ 128 in
  let i := Z.land i (Z.lnot (Z.shiftl 0xc000 48)) in
  let i := Z.lor i (Z.shiftl 0x8000 48) in
  let i := Z.land i (Z.lnot (Z.shiftl 0xf000 64)) in
  Z.lor i (Z.shiftl 4 76).

(** [str(uuid)]: 32 hexadecimal digits grouped 8-4-4-4-12. *)
Definition uuid_str (u : Z) : string :=
  let h := hex_of_bytes (map z_byte (be_bytes 16 u)) in
  String.substring 0 8 h +:+ "-" +:+ String.substring 8 4 h +:+ "-"
    +:+ String.substring 12 4 h +:+ "-" +:+ String.substring 16 4 h +:+ "-"
    +:+ String.substring 20 12 h.

End Codec.
Export Codec.

(* ===================================================================== *)
(** * The host: Odoo records, the ORM, [requests] and the entropy source *)
(* ===================================================================== *)

Module Host.

(** A [payment.provider] record, with the fields the add-ons read.  A
    [Char] field is [None] when unset (Odoo reads it as [False]). *)
Record provider : Type := {
  provider_id : Z;
  provider_state : string;
  justifi_client_id : option string;
  justifi_client_secret : option string;
  justifi_account_id : option string;
  justifi_webhook_secret : option pystr }.

(** A [payment.transaction] record. *)
Record transaction : Type := {
  tx_id : Z;
  tx_reference : string;
  tx_state : string;
  provider_reference : option string }.

(** A header value: a literal, the f-string [f'Bearer {token}'], or a
    record field passed as it is. *)
Inductive hval : Type :=
| HLit (s : string)
| HBearer (token : pyval)
| HField (f : option string).

(** The arguments of one [requests.post(url, json=..., headers=..., timeout=...)]. *)
Record http_request : Type := {
  req_url : string;
  req_json : gmap string pyval;
  req_headers : gmap string hval;
  req_timeout : Z }.

(** What [requests] hands back: [resp_json] is the outcome of
    [response.json()], the parser's message when the body is not JSON. *)
Record http_response : Type := {
  status_code : Z;
  resp_text : string;
  resp_json : string + pyval }.

Inductive http_outcome : Type :=
| PostFails (msg : string)        (* a requests.exceptions.RequestException *)
| PostAnswers (r : http_response).

(** What the code does to its surroundings, in the order it does it.  The
    state setters of [payment.transaction] ([_set_done], [_set_pending],
    [_set_error], [_set_canceled]) and the write of [provider_reference]
    belong to Odoo: a call is recorded and taken to return. *)
Inductive event : Type :=
| EvSearchProvider
| EvSearchTx (reference : pyval) (provider : Z)
| EvPost (r : http_request)
| EvUrandom (n : nat)
| EvVerify (payload : list byte) (signature secret : pystr)
| EvProcess (tx : Z) (payment_data : pyval)
| EvWriteReference (tx : Z) (v : pyval)
| EvSetDone (tx : Z)
| EvPostProcess (tx : Z)
| EvSetPending (tx : Z)
| EvSetError (tx : Z) (error_msg : pyval)  (* _set_error(f"JustiFi: {error_msg}") *)
| EvSetCanceled (tx : Z).

(** The answers of the surroundings; each may depend on what happened before. *)
Record env : Type := {
  search_provider : list event -> option provider;
      (* search([('code','=','justifi'), ('state','!=','disabled')], limit=1) *)
  search_tx : list event -> pyval -> Z -> option transaction;
      (* search([('provider_reference','=',ref), ('provider_id','=',id)], limit=1) *)
  post_answer : list event -> http_request -> http_outcome;
  post_process_answer : list event -> Z -> option exn;
  os_urandom : nat -> Z }.

Record world : Type := { log : list event; draws : nat }.

Definition M (A : Type) : Type := env -> world -> res A * world.

Definition ret {A} (a : A) : M A := fun _ w => (Ret a, w).
Definition raise {A} (e : exn) : M A := fun _ w => (Raise e, w).
Definition lift {A} (r : res A) : M A := fun _ w => (r, w).

Definition bind {A B} (m : M A) (k : A -> M B) : M B :=
  fun h w =>
    match m h w with
    | (Ret a, w') => k a h w'
    | (Raise e, w') => (Raise e, w')
    end.

(** [try: m  except Exception as e: handler e] *)
Definition try_except {A} (m : M A) (handler : exn -> M A) : M A :=
  fun h w =>
    match m h w with
    | (Raise e, w') => handler e h w'
    | r => r
    end.

Definition record (e : event) (w : world) : world :=
  {| log := log w ++ [e]; draws := draws w |}.

Definition emit (e : event) : M unit := fun _ w => (Ret tt, record e w).

Definition initial : world := {| log := []; draws := O |}.

(** ** Host calls *)

Definition search_active_provider : M (option provider) :=
  fun h w => (Ret (search_provider h (log w)), record EvSearchProvider w).

Definition tx_search (reference : pyval) (provider : Z) : M (option transaction) :=
  fun h w => (Ret (search_tx h (log w) reference provider),
              record (EvSearchTx reference provider) w).

Definition requests_post (r : http_request) : M http_response :=
  fun h w =>
    match post_answer h (log w) r with
    | PostFails msg => (Raise (RequestException msg), record (EvPost r) w)
    | PostAnswers a => (Ret a, record (EvPost r) w)
    end.

(** [response.json()] *)
Definition response_json (r : http_response) : M pyval :=
  match resp_json r with
  | inl msg => raise (JSONDecodeError msg)
  | inr v => ret v
  end.

(** [uuid.uuid4()]: one draw of 16 bytes from the entropy source. *)
Definition uuid4 : M Z :=
  fun h w => (Ret (uuid_of_random (os_urandom h (draws w))),
              {| log := log w ++ [EvUrandom (draws w)]; draws := S (draws w) |}).

(** [self._post_process()], which may raise. *)
Definition _post_process (tx : transaction) : M unit :=
  fun h w =>
    match post_process_answer h (log w) (tx_id tx) with
    | Some e => (Raise e, record (EvPostProcess (tx_id tx)) w)
    | None => (Ret tt, record (EvPostProcess (tx_id tx)) w)
    end.

End Host.
Export Host.

Notation "x <- m ;; k" := (bind m (fun x => k))
  (at level 100, m at next level, right associativity).
Notation "m ;;; k" := (bind m (fun _ => k))
  (at level 100, right associativity).

(** The text of a result: a literal or [str(e)] of a caught exception. *)
Inductive pytext : Type :=
| Text (s : string)
| StrOf (e : exn).

(* ===================================================================== *)
(** * payment_justifi/models/payment_provider.py *)
(* ===================================================================== *)

Module Provider.

(** The arguments of the [requests.post] call of [_justifi_get_access_token]. *)
Definition token_request (self : provider) : http_request :=
  {| req_url := OAUTH_TOKEN_URL;
     req_json := {[ "client_id" := char_field (justifi_client_id self);
                    "client_secret" := char_field (justifi_client_secret self) ]};
     req_headers := {[ "Content-Type" := HLit "application/json" ]};
     req_timeout := 30 |}.

(** [not self.justifi_client_id or not self.justifi_client_secret] *)
Definition credentials_missing (self : provider) : bool :=
  negb (truthy (char_field (justifi_client_id self)))
  || negb (truthy (char_field (justifi_client_secret self))).

(** The messages are the source texts, before Odoo's translation [_()]. *)
Definition _justifi_get_access_token (self : provider) : M pyval :=
  if credentials_missing self
  then raise (ValidationError "JustiFi Client ID and Client Secret are required.")
  else
    response <-
      try_except
        (requests_post (token_request self))
        (fun e =>
           if is_RequestException e
           then raise (ValidationError "Could not connect to JustiFi. Please try again later.")
           else raise e) ;;
    if negb (status_code response =? 200)
    then raise (ValidationError "JustiFi authentication failed. Please check your credentials.")
    else
      data <- response_json response ;;
      access_token <- lift (py_get data "access_token" PNone) ;;
      if negb (truthy access_token)
      then raise (ValidationError "JustiFi authentication failed. No access token received.")
      else ret access_token.

End Provider.

(* ===================================================================== *)
(** * payment_justifi/models/payment_transaction.py *)
(* ===================================================================== *)

Module Transaction.

(** [STATUS_MAPPING.get(status, 'pending')]: a list or a dict cannot be
    hashed; any other value that is not a string equals no key. *)
Definition status_lookup (status : pyval) : res string :=
  match status with
  | PStr s => Ret (default "pending" (STATUS_MAPPING !! s))
  | PList _ => Raise (TypeError "unhashable type: 'list'")
  | PDict _ => Raise (TypeError "unhashable type: 'dict'")
  | _ => Ret "pending"
  end.

Definition _justifi_process_payment_data (self : transaction) (payment_data : pyval) : M unit :=
  emit (EvProcess (tx_id self) payment_data) ;;;
  a <- lift (py_get payment_data "checkout_id" PNone) ;;
  checkout_id <- (if truthy a then ret a else lift (py_get payment_data "id" PNone)) ;;
  status <- lift (py_get payment_data "status" (PStr "")) ;;
  payment_id <- lift (py_get payment_data "successful_payment_id" (PStr "")) ;;
  odoo_state <- lift (status_lookup status) ;;
  (if truthy payment_id
   then emit (EvWriteReference (tx_id self) payment_id)
   else if truthy checkout_id && negb (truthy (char_field (provider_reference self)))
   then emit (EvWriteReference (tx_id self) checkout_id)
   else ret tt) ;;;
  if String.eqb odoo_state "done" then
    emit (EvSetDone (tx_id self)) ;;;
    try_except (_post_process self) (fun _ => ret tt)
  else if String.eqb odoo_state "pending" then
    emit (EvSetPending (tx_id self))
  else if String.eqb odoo_state "error" then
    e <- lift (py_get payment_data "error" (PDict ∅)) ;;
    error_msg <- lift (py_get e "message" (PStr "Payment failed")) ;;
    emit (EvSetError (tx_id self) error_msg)
  else if String.eqb odoo_state "cancel" then
    emit (EvSetCanceled (tx_id self))
  else ret tt.

Definition _justifi_get_tx_from_notification_data
    (provider : Host.provider) (notification_data : pyval) : M transaction :=
  a <- lift (py_get notification_data "checkout_id" PNone) ;;
  checkout_id <-
    (if truthy a then ret a
     else d <- lift (py_get notification_data "data" (PDict ∅)) ;;
          lift (py_get d "id" PNone)) ;;
  b <- lift (py_get notification_data "successful_payment_id" PNone) ;;
  payment_id <-
    (if truthy b then ret b
     else d <- lift (py_get notification_data "data" (PDict ∅)) ;;
          lift (py_get d "successful_payment_id" PNone)) ;;
  if negb (truthy checkout_id) && negb (truthy payment_id)
  then raise (ValidationError "JustiFi: Missing checkout_id or payment_id in notification data")
  else
    tx <- (if truthy checkout_id
           then tx_search checkout_id (provider_id provider)
           else ret None) ;;
    tx <- (match tx with
           | None =>
             if truthy payment_id
             then tx_search payment_id (provider_id provider)
             else ret None
           | Some _ => ret tx
           end) ;;
    match tx with
    | None => raise (ValidationError "JustiFi: Transaction not found")
    | Some t => ret t
    end.

End Transaction.

(* ===================================================================== *)
(** * payment_justifi/controllers/main.py *)
(* ===================================================================== *)

Module Webhook.

(** The parts of the HTTP request the webhook route reads. *)
Record request : Type := {
  jsonrequest : pyval;                 (* request.jsonrequest *)
  header_signature : option pystr;     (* the Justifi-Signature header, if sent *)
  httprequest_data : list byte }.      (* request.httprequest.data *)

Inductive webhook_result : Type :=
| StatusOk                             (* {'status': 'ok'} *)
| StatusError (message : pytext).      (* {'status': 'error', 'message': ...} *)

Definition _verify_webhook_signature
    (payload : list byte + pystr) (signature secret : pystr) : res bool :=
  match (match payload with
         | inl b => bytes_decode b
         | inr s => Ret s
         end) with
  | Raise e => Raise e
  | Ret payload =>
    match str_encode secret with
    | Raise e => Raise e
    | Ret key =>
      match str_encode payload with
      | Raise e => Raise e
      | Ret msg =>
        let expected := hexdigest (hmac_sha256 key msg) in
        compare_digest expected signature
      end
    end
  end.

(** [tx.state not in ('done', 'cancel')] *)
Definition not_finished (tx : transaction) : bool :=
  negb (String.eqb (tx_state tx) "done" || String.eqb (tx_state tx) "cancel").

(** [event_data[k] = v] *)
Definition py_setitem (o : pyval) (k : string) (v : pyval) : res pyval :=
  match o with
  | PDict d => Ret (PDict (<[k := v]> d))
  | PList _ => Raise (TypeError "list indices must be integers or slices, not str")
  | _ => Raise (TypeError ("'" +:+ type_name o +:+ "' object does not support item assignment"))
  end.

Definition _handle_payment_success (provider : Host.provider) (event_data : pyval) : M unit :=
  checkout_id <- lift (py_get event_data "id" (PStr "")) ;;
  payment_id <- lift (py_get event_data "successful_payment_id" (PStr "")) ;;
  tx <- (if truthy checkout_id
         then tx_search checkout_id (provider_id provider)
         else ret None) ;;
  tx <- (match tx with
         | None =>
           if truthy payment_id
           then tx_search payment_id (provider_id provider)
           else ret None
         | Some _ => ret tx
         end) ;;
  match tx with
  | Some tx =>
    if not_finished tx then
      event_data <- lift (py_setitem event_data "status" (PStr "completed")) ;;
      event_data <- lift (py_setitem event_data "checkout_id" checkout_id) ;;
      Transaction._justifi_process_payment_data tx event_data
    else ret tt
  | None => ret tt
  end.

Definition _handle_payment_failure (provider : Host.provider) (event_data : pyval) : M unit :=
  checkout_id <- lift (py_get event_data "id" (PStr "")) ;;
  e <- lift (py_get event_data "error" (PDict ∅)) ;;
  error_message <- lift (py_get e "message" (PStr "Payment failed")) ;;
  tx <- tx_search checkout_id (provider_id provider) ;;
  match tx with
  | Some tx =>
    if not_finished tx then
      event_data <- lift (py_setitem event_data "status" (PStr "failed")) ;;
      event_data <- lift (py_setitem event_data "checkout_id" checkout_id) ;;
      Transaction._justifi_process_payment_data tx event_data
    else ret tt
  | None => ret tt
  end.

(** A field or header that is unset reads as a falsy value. *)
Definition present (s : option pystr) : bool :=
  match s with
  | Some (_ :: _) => true
  | _ => false
  end.

(** The end of [justifi_webhook], from "Process based on event type" on. *)
Definition handle_event (provider : Host.provider) (event_type event_data : pyval)
    : M webhook_result :=
  (if eq_str event_type "payment.succeeded" || eq_str event_type "checkout.completed"
   then _handle_payment_success provider event_data
   else if eq_str event_type "payment.failed"
   then _handle_payment_failure provider event_data
   else ret tt) ;;;
  ret StatusOk.

(** [except Exception as e: return {'status': 'error', 'message': str(e)}] *)
Definition error_result (e : exn) : M webhook_result := ret (StatusError (StrOf e)).

Definition justifi_webhook (request : Webhook.request) : M webhook_result :=
  try_except
    (let data := jsonrequest request in
     event_type <- lift (py_get data "event_type" (PStr "")) ;;
     event_data <- lift (py_get data "data" (PDict ∅)) ;;
     let signature := default [] (header_signature request) in
     provider <- search_active_provider ;;
     match provider with
     | None => ret (StatusError (Text "Provider not found"))
     | Some provider =>
       let secret := default [] (justifi_webhook_secret provider) in
       valid <-
         (if present (justifi_webhook_secret provider) && present (header_signature request)
          then emit (EvVerify (httprequest_data request) signature secret) ;;;
               lift (_verify_webhook_signature (inl (httprequest_data request)) signature secret)
          else ret true) ;;
       if negb valid
       then ret (StatusError (Text "Invalid signature"))
       else handle_event provider event_type event_data
     end)
    error_result.

End Webhook.

(* ===================================================================== *)
(** * pos_payment_justifi *)
(* ===================================================================== *)

(** What the POS remote calls answer: a dict, or [{'error': ...}]. *)
Inductive rpc_result : Type :=
| RpcDict (d : gmap string pyval)
| RpcError (message : pytext).

(** The message taken from an error body:
    [error_data['error']['message']] when [error_data] is a dict whose
    ['error'] is a dict holding ['message'].  On every other body either a
    membership test is false or an exception is raised inside the [try],
    which is passed over, and the default message stays. *)
Definition terminal_error_message (r : http_response) : pyval :=
  match resp_json r with
  | inr (PDict error_data) =>
    match error_data !! "error" with
    | Some (PDict error) =>
      default (PStr "Failed to send payment to terminal") (error !! "message")
    | _ => PStr "Failed to send payment to terminal"
    end
  | _ => PStr "Failed to send payment to terminal"
  end.

(** The end of both terminal-pay functions, from the status test on. *)
Definition terminal_pay_answer (response : http_response) : M pyval :=
  if 400 <=? status_code response
  then raise (PlainException (terminal_error_message response))
  else
    data <- response_json response ;;
    lift (py_get data "data" data).

(** The end of both terminal-cancel functions: nothing is raised on a
    status of 400 or more, and whatever fails while reading the body gives [{}]. *)
Definition terminal_cancel_answer (response : http_response) : M pyval :=
  try_except
    (data <- response_json response ;;
     lift (py_get data "data" data))
    (fun _ => ret (PDict ∅)).

(** ** pos_payment_justifi/models/pos_payment_method.py *)

Module PosModel.

Definition TERMINALS_URL : string := "https://api.justifi.ai/v1/terminals".

(** The arguments of the [requests.post] call of [_justifi_send_to_terminal]:
    [url = f'{TERMINALS_URL}/pay'], the terminal id in the body. *)
Definition pay_request (provider : Host.provider) (terminal_id : string)
    (checkout_id access_token : pyval) (idempotency_key : string) : http_request :=
  let headers : gmap string hval :=
    {[ "Authorization" := HBearer access_token;
       "Content-Type" := HLit "application/json";
       "Sub-Account" := HField (justifi_account_id provider);
       "Idempotency-Key" := HLit idempotency_key ]} in
  let url := TERMINALS_URL +:+ "/pay" in
  let payload : gmap string pyval :=
    {[ "checkout_id" := checkout_id; "terminal_id" := PStr terminal_id ]} in
  {| req_url := url; req_json := payload; req_headers := headers; req_timeout := 30 |}.

Definition _justifi_send_to_terminal
    (provider : Host.provider) (terminal_id : string) (checkout_id : pyval) : M pyval :=
  access_token <- Provider._justifi_get_access_token provider ;;
  key <- uuid4 ;;
  response <- requests_post
                (pay_request provider terminal_id checkout_id access_token (uuid_str key)) ;;
  terminal_pay_answer response.

(** The arguments of the [requests.post] call of [_justifi_cancel_terminal_action]. *)
Definition cancel_request (provider : Host.provider) (terminal_id : string)
    (checkout_id access_token : pyval) : http_request :=
  let headers : gmap string hval :=
    {[ "Authorization" := HBearer access_token;
       "Content-Type" := HLit "application/json";
       "Sub-Account" := HField (justifi_account_id provider) ]} in
  let url := TERMINALS_URL +:+ "/" +:+ terminal_id +:+ "/cancel" in
  let payload : gmap string pyval := {[ "checkout_id" := checkout_id ]} in
  {| req_url := url; req_json := payload; req_headers := headers; req_timeout := 30 |}.

Definition _justifi_cancel_terminal_action
    (provider : Host.provider) (terminal_id : string) (checkout_id : pyval) : M pyval :=
  access_token <- Provider._justifi_get_access_token provider ;;
  response <- requests_post (cancel_request provider terminal_id checkout_id access_token) ;;
  terminal_cancel_answer response.

Definition justifi_cancel_payment (checkout_id : pyval) (terminal_id : string) : M rpc_result :=
  try_except
    (provider <- search_active_provider ;;
     match provider with
     | None => ret (RpcError (Text "JustiFi provider not found"))
     | Some provider =>
       _justifi_cancel_terminal_action provider terminal_id checkout_id ;;;
       ret (RpcDict {[ "success" := PBool true; "cancelled" := PBool true ]})
     end)
    (fun e => ret (RpcError (StrOf e))).

End PosModel.

(** ** pos_payment_justifi/controllers/main.py *)

Module PosController.

Definition TERMINALS_URL : string := "https://api.justifi.ai/v1/terminals".

(** The arguments of the [requests.post] call of [_send_to_terminal]:
    [url = f'{TERMINALS_URL}/{terminal_id}/pay'], the checkout id alone in the body. *)
Definition pay_request (provider : Host.provider) (terminal_id : string)
    (checkout_id access_token : pyval) (idempotency_key : string) : http_request :=
  let headers : gmap string hval :=
    {[ "Authorization" := HBearer access_token;
       "Content-Type" := HLit "application/json";
       "Sub-Account" := HField (justifi_account_id provider);
       "Idempotency-Key" := HLit idempotency_key ]} in
  let url := TERMINALS_URL +:+ "/" +:+ terminal_id +:+ "/pay" in
  let payload : gmap string pyval := {[ "checkout_id" := checkout_id ]} in
  {| req_url := url; req_json := payload; req_headers := headers; req_timeout := 30 |}.

Definition _send_to_terminal
    (provider : Host.provider) (terminal_id : string) (checkout_id : pyval) : M pyval :=
  access_token <- Provider._justifi_get_access_token provider ;;
  key <- uuid4 ;;
  response <- requests_post
                (pay_request provider terminal_id checkout_id access_token (uuid_str key)) ;;
  terminal_pay_answer response.

End PosController.

(* ===================================================================== *)
(** * Vocabulary of the statements *)
(* ===================================================================== *)

Module Spec.

(** The raw bytes of a payload that is text: bytes that decode as UTF-8, or
    the UTF-8 form of a [str]. *)
Definition raw_payload (payload : list byte + pystr) : option (list byte) :=
  match payload with
  | inl b => match utf8_decode b with Some _ => Some b | None => None end
  | inr s => utf8_encode s
  end.

(** The events that are calls of the transaction state setters. *)
Definition is_transition (e : event) : bool :=
  match e with
  | EvSetDone _ | EvPostProcess _ | EvSetPending _ | EvSetError _ _ | EvSetCanceled _ => true
  | _ => false
  end.

Definition transitions (l : list event) : list event := List.filter is_transition l.

(** ['error'] is absent from the dict or is itself a dict. *)
Definition dict_or_absent (d : gmap string pyval) (k : string) : Prop :=
  match d !! k with
  | None | Some (PDict _) => True
  | Some _ => False
  end.

(** [d.get(k, {}).get(k', dflt)] when [d.get(k, {})] is a dict. *)
Definition nested_get (d : gmap string pyval) (k k' : string) (dflt : pyval) : pyval :=
  match d !! k with
  | Some (PDict e) => default dflt (e !! k')
  | _ => dflt
  end.

(** The calls that match a local state. *)
Definition matching_transition (tx : Z) (state : string) (payment_data : gmap string pyval)
    : list event :=
  if String.eqb state "done" then [EvSetDone tx; EvPostProcess tx]
  else if String.eqb state "pending" then [EvSetPending tx]
  else if String.eqb state "error"
  then [EvSetError tx (nested_get payment_data "error" "message" (PStr "Payment failed"))]
  else if String.eqb state "cancel" then [EvSetCanceled tx]
  else [].

(** The checkout id and the payment id a notification carries. *)
Definition notification_checkout_id (nd : gmap string pyval) : pyval :=
  py_or (dict_get nd "checkout_id" PNone) (nested_get nd "data" "id" PNone).

Definition notification_payment_id (nd : gmap string pyval) : pyval :=
  py_or (dict_get nd "successful_payment_id" PNone)
        (nested_get nd "data" "successful_payment_id" PNone).

(** The transaction an event acts on, when it acts on one. *)
Definition touched (e : event) : option Z :=
  match e with
  | EvProcess i _ | EvWriteReference i _ | EvSetDone i | EvPostProcess i
  | EvSetPending i | EvSetError i _ | EvSetCanceled i => Some i
  | _ => None
  end.

(** What a run added to the log. *)
Definition new_events (before after : world) : list event :=
  drop (length (log before)) (log after).



(** A run of [m] under the host [h] only adds events satisfying [P], and
    what it returns satisfies [Q]. *)
Definition emits {A} (h : env) (m : M A) (Q : A -> Prop) (P : event -> Prop) : Prop :=
  forall w, exists l,
    log (snd (m h w)) = log w ++ l
    /\ Forall P l
    /\ forall a, fst (m h w) = Ret a -> Q a.

(** The transaction was handed out by a search among the transactions of
    provider [pid]. *)
Definition found (h : env) (pid : Z) (t : transaction) : Prop :=
  exists l r, search_tx h l r pid = Some t.

(** The event leaves alone every transaction but unfinished ones that a
    search among the transactions of provider [pid] handed out. *)
Definition spares_finished (h : env) (pid : Z) (e : event) : Prop :=
  forall i, touched e = Some i ->
    exists t, found h pid t /\ tx_id t = i
              /\ tx_state t <> "done" /\ tx_state t <> "cancel".

(** The event is a call of [_verify_webhook_signature]. *)
Definition is_verify (e : event) : bool :=
  match e with EvVerify _ _ _ => true | _ => false end.

(** What the webhook handlers may do: no signature check, and nothing to a
    finished transaction. *)
Definition handler_event (h : env) (pid : Z) (e : event) : Prop :=
  spares_finished h pid e /\ is_verify e = false.

(** The webhook answers [{'status': 'ok'}] or the text of an exception. *)
Definition ok_or_exception (r : Webhook.webhook_result) : Prop :=
  r = Webhook.StatusOk \/ exists e, r = Webhook.StatusError (StrOf e).

(** What [_justifi_cancel_terminal_action] returns for a response. *)
Definition cancel_value (a : http_response) : pyval :=
  match resp_json a with
  | inr (PDict d) => default (PDict d) (d !! "data")
  | _ => PDict ∅
  end.

Definition cancelled_result : rpc_result :=
  RpcDict {[ "success" := PBool true; "cancelled" := PBool true ]}.

End Spec.
Export Spec.

(* ===================================================================== *)
(** * Sample records and hosts *)
(* ===================================================================== *)

Module Samples.

Definition provider1 : provider :=
  {| provider_id := 1; provider_state := "enabled";
     justifi_client_id := Some "client"; justifi_client_secret := Some "secret";
     justifi_account_id := Some "acc_1";
     justifi_webhook_secret := Some (str_of_string "k") |}.

Definition tx_pending : transaction :=
  {| tx_id := 7; tx_reference := "S0001-1"; tx_state := "pending";
     provider_reference := Some "cho_1" |}.

Definition tx_done : transaction :=
  {| tx_id := 8; tx_reference := "S0002-1"; tx_state := "done";
     provider_reference := Some "cho_2" |}.

Definition json_answer (status : Z) (v : pyval) : http_outcome :=
  PostAnswers {| status_code := status; resp_text := "(json)"; resp_json := inr v |}.

Definition token_body : pyval :=
  PDict {[ "access_token" := PStr "tok"; "id" := PStr "tra_1" ]}.

(** The provider is found, [cho_1] is pending and [cho_2] is done, every
    POST is answered 200 with [token_body]. *)
Definition host_ok : env :=
  {| search_provider := fun _ => Some provider1;
     search_tx := fun _ r _ =>
       if eq_str r "cho_1" then Some tx_pending
       else if eq_str r "cho_2" then Some tx_done else None;
     post_answer := fun _ _ => json_answer 200 token_body;
     post_process_answer := fun _ _ => None;
     os_urandom := fun n => 0x000102030405060708090a0b0c0d0e0f + Z.of_nat n |}.

(** No active JustiFi provider. *)
Definition host_no_provider : env :=
  {| search_provider := fun _ => None;
     search_tx := fun _ _ _ => None;
     post_answer := fun _ _ => PostFails "unreachable";
     post_process_answer := fun _ _ => None;
     os_urandom := fun _ => 0 |}.

(** Every POST is answered 200 with a body that is not JSON. *)
Definition host_html : env :=
  {| search_provider := fun _ => Some provider1;
     search_tx := fun _ _ _ => None;
     post_answer := fun _ _ =>
       PostAnswers {| status_code := 200; resp_text := "<html>";
                      resp_json := inl "Expecting value: line 1 column 1 (char 0)" |};
     post_process_answer := fun _ _ => None;
     os_urandom := fun _ => 0 |}.

(** The token endpoint answers; every other POST times out. *)
Definition host_cancel_timeout : env :=
  {| search_provider := fun _ => Some provider1;
     search_tx := fun _ _ _ => None;
     post_answer := fun _ r =>
       if String.eqb (req_url r) OAUTH_TOKEN_URL
       then json_answer 200 token_body
       else PostFails "Read timed out.";
     post_process_answer := fun _ _ => None;
     os_urandom := fun _ => 0 |}.

(** The token endpoint answers; every other POST is answered 500 with a
    body that is not JSON. *)
Definition refused_answer : http_response :=
  {| status_code := 500; resp_text := "Internal Server Error";
     resp_json := inl "Expecting value: line 1 column 1 (char 0)" |}.

Definition host_cancel_refused : env :=
  {| search_provider := fun _ => Some provider1;
     search_tx := fun _ _ _ => None;
     post_answer := fun _ r =>
       if String.eqb (req_url r) OAUTH_TOKEN_URL
       then json_answer 200 token_body
       else PostAnswers refused_answer;
     post_process_answer := fun _ _ => None;
     os_urandom := fun _ => 0 |}.

End Samples.

(* ===================================================================== *)
(** * Reads and library calls of the remaining code *)
(* ===================================================================== *)

Module Reads.

(** Answers to the calls that only read: [requests.get], the search of a
    transaction by reference alone, the provider of a transaction.  Each may
    depend on what happened before; the log has no entry for these reads. *)
Record reads : Type := {
  get_answer : list event -> string -> gmap string hval -> http_outcome;
      (* requests.get(url, headers=headers, timeout=30) *)
  search_reference : list event -> string -> option transaction;
      (* search([('provider_reference', '=', ref)], limit=1) *)
  provider_of : transaction -> provider }.
      (* tx.provider_id *)

(** Two functions of Python that are not modelled: [str.lower] and the
    formatting [template % value]. *)
Record pylib : Type := {
  str_lower : string -> string;
  percent_s : string -> pyval -> string }.

Definition requests_get (g : reads) (url : string) (headers : gmap string hval)
    : M http_response :=
  fun h w =>
    match get_answer g (log w) url headers with
    | PostFails msg => (Raise (RequestException msg), w)
    | PostAnswers a => (Ret a, w)
    end.

Definition reference_search (g : reads) (reference : string) : M (option transaction) :=
  fun h w => (Ret (search_reference g (log w) reference), w).

(** [except requests.exceptions.RequestException: raise ValidationError(...)] *)
Definition connection_guard {A} (m : M A) : M A :=
  try_except m
    (fun e =>
       if is_RequestException e
       then raise (ValidationError "Could not connect to JustiFi. Please try again later.")
       else raise e).

(** The message of an error body, as the [try] blocks after a status of 400
    or more read it: [error_data['error']['message']] when both are dicts
    holding the key, the default on every other body. *)
Definition api_error_message (dflt : string) (r : http_response) : pyval :=
  match resp_json r with
  | inr (PDict error_data) =>
    match error_data !! "error" with
    | Some (PDict error) => default (PStr dflt) (error !! "message")
    | _ => PStr dflt
    end
  | _ => PStr dflt
  end.

(** [f'{field}'] of a [Char] field. *)
Definition char_str (f : option string) : string :=
  match f with
  | Some s => s
  | None => "False"
  end.

End Reads.
Export Reads.

(* ===================================================================== *)
(** * payment_justifi/models/payment_provider.py, the other methods *)
(* ===================================================================== *)

Module ProviderMore.

(** A provider with the two further fields these methods read. *)
Record provider_config : Type := {
  base : provider;
  code : string;
  justifi_payment_method_group_id : option string }.

(** [value.startswith(prefix)] on a field that is set. *)
Definition startswith (f : option string) (prefix : string) : bool :=
  String.prefix prefix (default "" f).

Fixpoint _check_justifi_account_id (self : list provider_config) : res unit :=
  match self with
  | [] => Ret tt
  | provider :: rest =>
    if String.eqb (code provider) "justifi"
       && truthy (char_field (justifi_account_id (base provider)))
    then
      if negb (startswith (justifi_account_id (base provider)) "acc_")
      then Raise (ValidationError
                    "The Sub-Account ID should start with 'acc_'. Please check your JustiFi dashboard for the correct ID.")
      else _check_justifi_account_id rest
    else _check_justifi_account_id rest
  end.

Fixpoint _check_justifi_payment_method_group_id (self : list provider_config) : res unit :=
  match self with
  | [] => Ret tt
  | provider :: rest =>
    if String.eqb (code provider) "justifi"
       && truthy (char_field (justifi_payment_method_group_id provider))
    then
      if negb (startswith (justifi_payment_method_group_id provider) "pmg_")
      then Raise (ValidationError
                    "The Payment Method Group ID should start with 'pmg_'. Please check your JustiFi dashboard for the correct ID.")
      else _check_justifi_payment_method_group_id rest
    else _check_justifi_payment_method_group_id rest
  end.

(** The arguments of the [requests.post] call of [_justifi_create_checkout]. *)
Definition checkout_request (py : pylib) (self : provider_config) (amount : Z)
    (currency description origin_url : string) (access_token : pyval) : http_request :=
  let headers : gmap string hval :=
    {[ "Authorization" := HBearer access_token;
       "Content-Type" := HLit "application/json";
       "Sub-Account" := HField (justifi_account_id (base self)) ]} in
  let checkout_data : gmap string pyval :=
    {[ "amount" := PInt amount;
       "currency" := PStr (str_lower py currency);
       "description" := PStr description;
       "origin_url" := PStr origin_url ]} in
  let checkout_data :=
    if truthy (char_field (justifi_payment_method_group_id self))
    then <[ "payment_method_group_id" :=
              char_field (justifi_payment_method_group_id self) ]> checkout_data
    else checkout_data in
  {| req_url := CHECKOUTS_URL; req_json := checkout_data;
     req_headers := headers; req_timeout := 30 |}.

Definition _justifi_create_checkout (py : pylib) (self : provider_config) (amount : Z)
    (currency description origin_url : string) : M pyval :=
  access_token <- Provider._justifi_get_access_token (base self) ;;
  if negb (truthy (char_field (justifi_account_id (base self))))
  then raise (ValidationError "JustiFi Sub-Account ID is required.")
  else
    response <-
      connection_guard
        (requests_post
           (checkout_request py self amount currency description origin_url access_token)) ;;
    if 400 <=? status_code response
    then
      let error_msg := api_error_message "Failed to create checkout" response in
      raise (ValidationError (percent_s py "JustiFi: %s" error_msg))
    else
      data <- response_json response ;;
      checkout <- lift (py_get data "data" data) ;;
      id <- lift (py_get checkout "id" PNone) ;;
      if negb (truthy id)
      then raise (ValidationError "JustiFi: No checkout ID returned.")
      else ret checkout.

(** The arguments of the [requests.post] call of
    [_justifi_get_web_component_token]; no Sub-Account header. *)
Definition web_component_token_request (self : provider) (checkout_id : string)
    (access_token : pyval) : http_request :=
  let resources : list pyval :=
    [ PStr ("write:checkout:" +:+ checkout_id);
      PStr ("write:tokenize:" +:+ char_str (justifi_account_id self)) ] in
  let headers : gmap string hval :=
    {[ "Authorization" := HBearer access_token;
       "Content-Type" := HLit "application/json" ]} in
  {| req_url := WEB_COMPONENT_TOKEN_URL;
     req_json := {[ "resources" := PList resources ]};
     req_headers := headers; req_timeout := 30 |}.

Definition _justifi_get_web_component_token (self : provider) (checkout_id : string)
    : M pyval :=
  access_token <- Provider._justifi_get_access_token self ;;
  response <-
    connection_guard
      (requests_post (web_component_token_request self checkout_id access_token)) ;;
  if negb (status_code response =? 200)
  then raise (ValidationError "JustiFi: Failed to initialize payment form.")
  else
    data <- response_json response ;;
    token <- lift (py_get data "access_token" PNone) ;;
    if negb (truthy token)
    then raise (ValidationError "JustiFi: Failed to initialize payment form.")
    else ret token.

Definition checkout_headers (self : provider) (access_token : pyval) : gmap string hval :=
  {[ "Authorization" := HBearer access_token;
     "Content-Type" := HLit "application/json";
     "Sub-Account" := HField (justifi_account_id self) ]}.

Definition _justifi_get_checkout (g : reads) (self : provider) (checkout_id : string)
    : M pyval :=
  access_token <- Provider._justifi_get_access_token self ;;
  let headers := checkout_headers self access_token in
  let url := CHECKOUTS_URL +:+ "/" +:+ checkout_id in
  response <- connection_guard (requests_get g url headers) ;;
  if 400 <=? status_code response
  then raise (ValidationError "JustiFi: Failed to verify payment status.")
  else
    data <- response_json response ;;
    lift (py_get data "data" data).

End ProviderMore.

(* ===================================================================== *)
(** * payment_justifi/controllers/main.py, the return routes *)
(* ===================================================================== *)

Module Complete.

(** [request.redirect(location)] *)
Inductive http_result : Type :=
| Redirect (location : string).

(** [kwargs.get(k)] on form data: [None] or a string. *)
Definition form_value (kwargs : gmap string string) (k : string) : pyval :=
  match kwargs !! k with
  | Some s => PStr s
  | None => PNone
  end.

Definition justifi_return (kwargs : gmap string string) : M http_result :=
  ret (Redirect "/payment/status").

Definition justifi_complete (g : reads) (kwargs : gmap string string) : M http_result :=
  try_except
    (let checkout_id := form_value kwargs "checkout_id" in
     let payment_id := form_value kwargs "payment_id" in
     if negb (truthy checkout_id)
     then ret (Redirect "/payment/status")
     else
       tx <- reference_search g (default "" (kwargs !! "checkout_id")) ;;
       match tx with
       | None => ret (Redirect "/payment/status")
       | Some tx =>
         let provider := provider_of g tx in
         verified <-
           try_except
             (checkout_data <-
                ProviderMore._justifi_get_checkout g provider
                  (default "" (kwargs !! "checkout_id")) ;;
              ret (Some checkout_data))
             (fun e => if is_ValidationError e then ret None else raise e) ;;
         match verified with
         | None => ret (Redirect "/payment/status")
         | Some checkout_data =>
           checkout_data <- lift (Webhook.py_setitem checkout_data "checkout_id" checkout_id) ;;
           checkout_data <-
             (if truthy payment_id
              then lift (Webhook.py_setitem checkout_data "successful_payment_id" payment_id)
              else ret checkout_data) ;;
           Transaction._justifi_process_payment_data tx checkout_data ;;;
           ret (Redirect "/payment/status")
         end
       end)
    (fun _ => ret (Redirect "/payment/status")).

End Complete.

(* ===================================================================== *)
(** * pos_payment_justifi, the status check *)
(* ===================================================================== *)

(** The dict the status check answers for a checkout. *)
Definition status_dict (checkout_id : string) (status payment_id : pyval)
    : gmap string pyval :=
  {[ "success" := PBool true;
     "status" := status;
     "payment_id" := payment_id;
     "checkout_id" := PStr checkout_id;
     "is_paid" := PBool (eq_str status "completed" || eq_str status "succeeded");
     "is_pending" := PBool (eq_str status "pending" || eq_str status "created");
     "is_failed" := PBool (eq_str status "failed" || eq_str status "canceled") ]}.

Module PosModelMore.

Definition justifi_payment_status (g : reads) (checkout_id : string) : M rpc_result :=
  try_except
    (provider <- search_active_provider ;;
     match provider with
     | None => ret (RpcError (Text "JustiFi provider not found"))
     | Some provider =>
       checkout <- ProviderMore._justifi_get_checkout g provider checkout_id ;;
       status <- lift (py_get checkout "status" (PStr "")) ;;
       payment_id <- lift (py_get checkout "successful_payment_id" (PStr "")) ;;
       ret (RpcDict (status_dict checkout_id status payment_id))
     end)
    (fun e => ret (RpcError (StrOf e))).

End PosModelMore.

(* ===================================================================== *)
(** * Vocabulary of the further statements *)
(* ===================================================================== *)

Module SpecMore.

(** A lower-case hexadecimal digit, as a code point. *)
Definition is_hex_lower (c : Z) : bool := in_range 48 57 c || in_range 97 102 c.

(** The events that write [provider_reference]. *)
Definition is_reference_write (e : event) : bool :=
  match e with EvWriteReference _ _ => true | _ => false end.

Definition reference_writes (l : list event) : list event :=
  List.filter is_reference_write l.

(** The event is a POST. *)
Definition is_post (e : event) : bool :=
  match e with EvPost _ => true | _ => false end.

Definition posts (l : list event) : list event := List.filter is_post l.

(** The write of [provider_reference] that [_justifi_process_payment_data]
    makes for a payment data dict: the payment id if there is one, else the
    checkout id if the transaction has no reference yet. *)
Definition reference_write (self : transaction) (d : gmap string pyval) : list event :=
  let payment_id := dict_get d "successful_payment_id" (PStr "") in
  let checkout_id := py_or (dict_get d "checkout_id" PNone) (dict_get d "id" PNone) in
  if truthy payment_id then [EvWriteReference (tx_id self) payment_id]
  else if truthy checkout_id && negb (truthy (char_field (provider_reference self)))
  then [EvWriteReference (tx_id self) checkout_id]
  else [].

(** A status the table has no entry for: a missing status, a string that is
    not a key, or a value that is not a string (a list or a dict apart,
    which cannot be looked up). *)
Definition unknown_status (status : option pyval) : bool :=
  match status with
  | None => true
  | Some (PStr s) => match STATUS_MAPPING !! s with Some _ => false | None => true end
  | Some (PList _) | Some (PDict _) => false
  | Some _ => true
  end.

(** An event type the webhook has a handler for. *)
Definition handled_event_type (event_type : pyval) : bool :=
  eq_str event_type "payment.succeeded" || eq_str event_type "checkout.completed"
  || eq_str event_type "payment.failed".

(** The record passes the account id check. *)
Definition account_id_ok (p : ProviderMore.provider_config) : Prop :=
  ProviderMore.code p = "justifi" ->
  forall s, justifi_account_id (ProviderMore.base p) = Some s -> s <> "" ->
  String.prefix "acc_" s = true.

(** The record passes the payment method group id check. *)
Definition group_id_ok (p : ProviderMore.provider_config) : Prop :=
  ProviderMore.code p = "justifi" ->
  forall s, ProviderMore.justifi_payment_method_group_id p = Some s -> s <> "" ->
  String.prefix "pmg_" s = true.

(** JustiFi does not hand out the checkout: every GET fails or is answered
    with a status of 400 or more. *)
Definition checkout_unavailable (g : reads) : Prop :=
  forall l url headers,
    match get_answer g l url headers with
    | PostFails _ => True
    | PostAnswers a => 400 <= status_code a
    end.

(** The flag of a status dict. *)
Definition flag (d : gmap string pyval) (k : string) : bool :=
  match d !! k with
  | Some (PBool b) => b
  | _ => false
  end.

(** The POST carries no Sub-Account header. *)
Definition without_sub_account (e : event) : Prop :=
  forall r, e = EvPost r -> req_headers r !! "Sub-Account" = None.

End SpecMore.
Export SpecMore.

(** A host of reads for the samples: every GET is answered 200 with a
    failed checkout, [cho_2] is the reference of a done transaction. *)
Module SamplesMore.

Definition failed_checkout : pyval :=
  PDict {[ "data" := PDict {[ "id" := PStr "cho_2"; "status" := PStr "failed" ]} ]}.

Definition reads_ok : reads :=
  {| get_answer := fun _ _ _ => Samples.json_answer 200 failed_checkout;
     search_reference := fun _ r =>
       if String.eqb r "cho_2" then Some Samples.tx_done else None;
     provider_of := fun _ => Samples.provider1 |}.

(** The same reads when JustiFi cannot be reached. *)
Definition reads_down : reads :=
  {| get_answer := fun _ _ _ => PostFails "Connection refused";
     search_reference := search_reference reads_ok;
     provider_of := provider_of reads_ok |}.

Definition config1 : ProviderMore.provider_config :=
  {| ProviderMore.base := Samples.provider1; ProviderMore.code := "justifi";
     ProviderMore.justifi_payment_method_group_id := None |}.

Definition pylib_id : pylib :=
  {| str_lower := fun s => s; percent_s := fun t _ => t |}.

(** The token endpoint answers; every other POST is refused with 422. *)
Definition busy_answer : http_response :=
  {| status_code := 422; resp_text := "(json)";
     resp_json := inr (PDict {[ "error" := PDict {[ "message" := PStr "Terminal is busy" ]} ]}) |}.

Definition host_terminal_busy : env :=
  {| search_provider := fun _ => Some Samples.provider1;
     search_tx := fun _ _ _ => None;
     post_answer := fun _ r =>
       if String.eqb (req_url r) OAUTH_TOKEN_URL
       then Samples.json_answer 200 Samples.token_body
       else PostAnswers busy_answer;
     post_process_answer := fun _ _ => None;
     os_urandom := fun _ => 0 |}.

End SamplesMore.

(* ===================================================================== *)
(** * Test vectors for the codecs *)
(* ===================================================================== *)

Example sha256_abc :
  hex_of_bytes (sha256 [x61; x62; x63])
  = "ba7816bf8f01cfea414140de5dae2223b00361a396177a9cb410ff61f20015ad".
Proof. vm_compute. reflexivity. Qed.

Example hmac_k_ff :
  hex_of_bytes (hmac_sha256 [x6b] [xff])
  = "bef8a8bb6c6ac27eb1b22749cffef0d17a03cc445e7992912aeb7e96e947f4dc".
Proof. vm_compute. reflexivity. Qed.

Example uuid_ex :
  uuid_str (uuid_of_random 0x000102030405060708090a0b0c0d0e0f)
  = "00010203-0405-4607-8809-0a0b0c0d0e0f".
Proof. vm_compute. reflexivity. Qed.

Example utf8_ex : utf8_decode [xe2; x82; xac; x41; xf0; x9f; x98; x80] = Some [0x20AC; 0x41; 0x1F600].
Proof. vm_compute. reflexivity. Qed.
Example utf8_ex2 : utf8_encode [0x20AC; 0x41; 0x1F600] = Some [xe2; x82; xac; x41; xf0; x9f; x98; x80].
Proof. vm_compute. reflexivity. Qed.

(* ===================================================================== *)
(** * The status table *)
(* ===================================================================== *)

Section StatusTable.

Lemma STATUS_MAPPING_lookups :
  STATUS_MAPPING !! "completed" = Some "done"
  /\ STATUS_MAPPING !! "succeeded" = Some "done"
  /\ STATUS_MAPPING !! "pending" = Some "pending"
  /\ STATUS_MAPPING !! "created" = Some "pending"
  /\ STATUS_MAPPING !! "failed" = Some "error"
  /\ STATUS_MAPPING !! "canceled" = Some "cancel".
Proof. repeat split; reflexivity. Qed.

Lemma STATUS_MAPPING_size : size STATUS_MAPPING = 6%nat.
Proof. reflexivity. Qed.

(** C1, as the specification words it, fails: the table has six vendor
    statuses, not five. *)
Lemma C1_table_has_not_five_keys :
  ~ (size STATUS_MAPPING = 5%nat /\ map_img STATUS_MAPPING ⊆ local_states).
Proof. rewrite STATUS_MAPPING_size. intros [H _]. discriminate H. Qed.

(** C1 (amended): STATUS_MAPPING is a fixed dictionary with exactly six
    vendor status strings as keys (completed, succeeded, pending, created,
    failed, canceled), and its values are exactly the four local states
    done, pending, error and cancel. *)
Theorem C1_status_mapping_six_keys_four_states :
  size STATUS_MAPPING = 6%nat
  /\ dom STATUS_MAPPING
     = {[ "completed"; "succeeded"; "pending"; "created"; "failed"; "canceled" ]}
  /\ map_img STATUS_MAPPING = local_states.
Proof.
  split; [reflexivity|].
  unfold STATUS_MAPPING, STATUS_MAPPING_items, local_states. simpl.
  split.
  - rewrite !dom_insert_L, dom_empty_L. set_solver.
  - apply set_eq. intros v. rewrite elem_of_map_img. split.
    + intros [k Hk]. revert Hk. rewrite !lookup_insert.
      repeat case_decide; try rewrite lookup_empty; intros [= <-]; set_solver.
    + rewrite !elem_of_union, !elem_of_singleton.
      intros [[[-> | ->] | ->] | ->].
      * exists "completed". reflexivity.
      * exists "pending". reflexivity.
      * exists "failed". reflexivity.
      * exists "canceled". reflexivity.
Qed.

End StatusTable.

(* ===================================================================== *)
(** * Random UUIDs *)
(* ===================================================================== *)

Section Uuid.





End Uuid.

(* ===================================================================== *)
(** * UTF-8: what decodes encodes back to the same bytes *)
(* ===================================================================== *)

Section Utf8.

Lemma byte_z_range (b : byte) : 0 <= byte_z b < 256.
Proof.
  unfold byte_z. pose proof (Byte.to_N_bounded b). lia.
Qed.

Lemma z_byte_z (b : byte) : z_byte (byte_z b) = b.
Proof.
  unfold z_byte, byte_z. rewrite N2Z.id, Byte.of_to_N. reflexivity.
Qed.

Lemma in_range_true lo hi z : lo <= z <= hi -> in_range lo hi z = true.
Proof. unfold in_range. intros. apply andb_true_intro. split; apply Z.leb_le; lia. Qed.

Lemma in_range_false lo hi z : z < lo \/ hi < z -> in_range lo hi z = false.
Proof.
  unfold in_range. intros [H | H].
  - apply andb_false_intro1. apply Z.leb_gt. lia.
  - apply andb_false_intro2. apply Z.leb_gt. lia.
Qed.

Lemma in_range_inv lo hi z : in_range lo hi z = true -> lo <= z <= hi.
Proof. unfold in_range. intros [H1 H2]%andb_prop. apply Z.leb_le in H1, H2. lia. Qed.


Local Ltac arith := Z.div_mod_to_equations; lia.

Lemma encode_1 x : 0 <= x < 0x80 -> utf8_encode_cp x = Some [z_byte x].
Proof.
  intros H. unfold utf8_encode_cp. rewrite in_range_true by lia. reflexivity.
Qed.

Lemma encode_2 x0 x1 :
  0xC2 <= x0 <= 0xDF -> 0x80 <= x1 <= 0xBF ->
  utf8_encode_cp ((x0 - 0xC0) * 64 + (x1 - 0x80)) = Some [z_byte x0; z_byte x1].
Proof.
  intros H0 H1. unfold utf8_encode_cp.
  set (c := (x0 - 0xC0) * 64 + (x1 - 0x80)).
  assert (0x80 <= c <= 0x7FF) as Hc by (subst c; lia).
  rewrite in_range_false by lia. rewrite in_range_true by lia.
  replace (0xC0 + c / 64) with x0 by (subst c; arith).
  replace (0x80 + c mod 64) with x1 by (subst c; arith).
  reflexivity.
Qed.

Lemma encode_3 x0 x1 x2 :
  0xE0 <= x0 <= 0xEF ->
  (if x0 =? 0xE0 then 0xA0 else 0x80) <= x1 <= (if x0 =? 0xED then 0x9F else 0xBF) ->
  0x80 <= x2 <= 0xBF ->
  utf8_encode_cp ((x0 - 0xE0) * 4096 + (x1 - 0x80) * 64 + (x2 - 0x80))
  = Some [z_byte x0; z_byte x1; z_byte x2].
Proof.
  intros H0 H1 H2. unfold utf8_encode_cp.
  set (c := (x0 - 0xE0) * 4096 + (x1 - 0x80) * 64 + (x2 - 0x80)).
  assert (0x800 <= c <= 0xFFFF /\ (c < 0xD800 \/ 0xDFFF < c)) as [Hc Hs].
  { subst c. destruct (Z.eqb_spec x0 0xE0), (Z.eqb_spec x0 0xED); lia. }
  rewrite !in_range_false by lia. rewrite in_range_true by lia.
  rewrite in_range_false by lia.
  assert (0x80 <= x1 <= 0xBF) as H1'
    by (destruct (Z.eqb_spec x0 0xE0), (Z.eqb_spec x0 0xED); lia).
  replace (0xE0 + c / 4096) with x0 by (subst c; arith).
  replace (0x80 + (c / 64) mod 64) with x1 by (subst c; arith).
  replace (0x80 + c mod 64) with x2 by (subst c; arith).
  reflexivity.
Qed.

Lemma encode_4 x0 x1 x2 x3 :
  0xF0 <= x0 <= 0xF4 ->
  (if x0 =? 0xF0 then 0x90 else 0x80) <= x1 <= (if x0 =? 0xF4 then 0x8F else 0xBF) ->
  0x80 <= x2 <= 0xBF -> 0x80 <= x3 <= 0xBF ->
  utf8_encode_cp ((x0 - 0xF0) * 262144 + (x1 - 0x80) * 4096
                  + (x2 - 0x80) * 64 + (x3 - 0x80))
  = Some [z_byte x0; z_byte x1; z_byte x2; z_byte x3].
Proof.
  intros H0 H1 H2 H3. unfold utf8_encode_cp.
  set (c := (x0 - 0xF0) * 262144 + (x1 - 0x80) * 4096 + (x2 - 0x80) * 64 + (x3 - 0x80)).
  assert (0x80 <= x1 <= 0xBF) as H1'
    by (destruct (Z.eqb_spec x0 0xF0), (Z.eqb_spec x0 0xF4); lia).
  assert (0x10000 <= c <= 0x10FFFF) as Hc.
  { subst c. destruct (Z.eqb_spec x0 0xF0), (Z.eqb_spec x0 0xF4); lia. }
  rewrite !in_range_false by lia. rewrite in_range_true by lia.
  replace (0xF0 + c / 262144) with x0 by (subst c; arith).
  replace (0x80 + (c / 4096) mod 64) with x1 by (subst c; arith).
  replace (0x80 + (c / 64) mod 64) with x2 by (subst c; arith).
  replace (0x80 + c mod 64) with x3 by (subst c; arith).
  reflexivity.
Qed.

Lemma encode_cons c enc r s :
  utf8_encode_cp c = Some enc -> utf8_encode s = Some r ->
  utf8_encode (c :: s) = Some (enc ++ r).
Proof. intros Hc Hs. simpl. rewrite Hc, Hs. reflexivity. Qed.

Lemma utf8_decode_encode_len (n : nat) :
  forall bs s, (length bs < n)%nat -> utf8_decode bs = Some s -> utf8_encode s = Some bs.
Proof.
  induction n as [|n IH]; intros bs s Hn; [lia|].
  destruct bs as [|b0 r0]; [intros [= <-]; reflexivity|].
  cbn [utf8_decode]. cbv zeta.
  pose proof (byte_z_range b0) as R0.
  destruct (byte_z b0 <? 0x80) eqn:E1.
  { apply Z.ltb_lt in E1.
    intros (s' & D & ->)%fmap_Some.
    rewrite <- (z_byte_z b0) at 2.
    apply (encode_cons _ [_]); [apply encode_1; lia|].
    apply IH; [simpl in Hn; lia|assumption]. }
  destruct (in_range 0xC2 0xDF (byte_z b0)) eqn:E2.
  { apply in_range_inv in E2.
    destruct r0 as [|b1 r1]; [discriminate|].
    destruct (in_range 0x80 0xBF (byte_z b1)) eqn:C1; [|discriminate].
    apply in_range_inv in C1.
    intros (s' & D & ->)%fmap_Some.
    rewrite <- (z_byte_z b0), <- (z_byte_z b1) at 2.
    apply (encode_cons _ [_; _]); [apply encode_2; lia|].
    apply IH; [simpl in Hn; lia|assumption]. }
  destruct (in_range 0xE0 0xEF (byte_z b0)) eqn:E3.
  { apply in_range_inv in E3.
    destruct r0 as [|b1 [|b2 r2]]; [discriminate..|].
    match goal with |- context [if ?c then _ else _] => destruct c eqn:C end;
      [|discriminate].
    apply andb_prop in C as [C1 C2].
    apply in_range_inv in C1, C2.
    intros (s' & D & ->)%fmap_Some.
    rewrite <- (z_byte_z b0), <- (z_byte_z b1), <- (z_byte_z b2) at 2.
    apply (encode_cons _ [_; _; _]); [apply encode_3; lia|].
    apply IH; [simpl in Hn; lia|assumption]. }
  destruct (in_range 0xF0 0xF4 (byte_z b0)) eqn:E4; [|discriminate].
  apply in_range_inv in E4.
  destruct r0 as [|b1 [|b2 [|b3 r3]]]; [discriminate..|].
  match goal with |- context [if ?c then _ else _] => destruct c eqn:C end;
    [|discriminate].
  apply andb_prop in C as [C12 C3]. apply andb_prop in C12 as [C1 C2].
  apply in_range_inv in C1, C2, C3.
  intros (s' & D & ->)%fmap_Some.
  rewrite <- (z_byte_z b0), <- (z_byte_z b1), <- (z_byte_z b2), <- (z_byte_z b3) at 2.
  apply (encode_cons _ [_; _; _; _]); [apply encode_4; lia|].
  apply IH; [simpl in Hn; lia|assumption].
Qed.

(** Bytes that [decode('utf-8')] accepts are given back by [encode('utf-8')]. *)
Lemma utf8_decode_encode bs s :
  utf8_decode bs = Some s -> utf8_encode s = Some bs.
Proof. apply (utf8_decode_encode_len (S (length bs))). lia. Qed.

End Utf8.

(* ===================================================================== *)
(** * The webhook signature check *)
(* ===================================================================== *)

Section VerifySignature.

Import Webhook.

Lemma hex_byte_ascii (b : byte) : is_ascii (hexdigest [b]) = true.
Proof. destruct b; reflexivity. Qed.

Lemma hexdigest_cons b r : hexdigest (b :: r) = hexdigest [b] ++ hexdigest r.
Proof. reflexivity. Qed.

Lemma hexdigest_ascii (d : list byte) : is_ascii (hexdigest d) = true.
Proof.
  induction d as [|b r IH]; [reflexivity|].
  rewrite hexdigest_cons. unfold is_ascii in *.
  rewrite forallb_app, IH, andb_true_r. apply hex_byte_ascii.
Qed.

(** On an ASCII first argument [compare_digest] answers [True] exactly on
    equal arguments. *)
Lemma compare_digest_true a b :
  is_ascii a = true -> (compare_digest a b = Ret true <-> a = b).
Proof.
  intros Ha. unfold compare_digest. rewrite Ha. simpl. split.
  - destruct (is_ascii b); [|discriminate].
    intros [= H]. apply bool_decide_eq_true in H. exact H.
  - intros <-. rewrite Ha. f_equal. apply bool_decide_eq_true. reflexivity.
Qed.

(** A signature with a character outside ASCII is refused with [TypeError]. *)
Lemma compare_digest_non_ascii a b :
  is_ascii b = false -> exists msg, compare_digest a b = Raise (TypeError msg).
Proof.
  intros Hb. unfold compare_digest. rewrite Hb, andb_false_r. eauto.
Qed.

(** Bytes that are not UTF-8 make the check raise, whatever the signature. *)
Lemma verify_undecodable b signature secret :
  utf8_decode b = None ->
  _verify_webhook_signature (inl b) signature secret = Raise UnicodeDecodeError.
Proof.
  intros H. unfold _verify_webhook_signature, bytes_decode. rewrite H. reflexivity.
Qed.

Lemma sample_signature :
  hexdigest (hmac_sha256 [x6b] [xff])
  = str_of_string "bef8a8bb6c6ac27eb1b22749cffef0d17a03cc445e7992912aeb7e96e947f4dc".
Proof. vm_compute. reflexivity. Qed.

(** C2, as the specification words it, fails: for the one-byte payload FF,
    which is not UTF-8, and the HMAC-SHA256 of that payload under the secret
    "k" as signature, the check raises UnicodeDecodeError instead of
    returning True. *)
Lemma C2_undecodable_payload_not_true :
  ~ (forall (payload : list byte) (signature secret : pystr) (key : list byte),
       utf8_encode secret = Some key ->
       (_verify_webhook_signature (inl payload) signature secret = Ret true
        <-> hexdigest (hmac_sha256 key payload) = signature)).
Proof.
  intros H.
  specialize (H [xff] (hexdigest (hmac_sha256 [x6b] [xff])) [0x6b] [x6b] eq_refl).
  destruct H as [_ H]. specialize (H eq_refl).
  rewrite verify_undecodable in H by reflexivity. discriminate H.
Qed.

(** C2 (amended): for every payload, signature string and secret,
    _verify_webhook_signature returns True if and only if the secret and the
    payload are UTF-8 text (the payload bytes that decode as UTF-8, or a str
    that can be encoded; the secret a str that can be encoded) and the
    hexadecimal HMAC-SHA256 of the raw payload under the UTF-8 bytes of the
    secret equals the signature; on such a secret and payload its result is
    that of the constant-time digest comparison of the two; on any other
    payload or secret it does not return False but raises: UnicodeDecodeError
    for bytes that are not UTF-8, UnicodeEncodeError for a str that cannot be
    encoded. *)
Theorem C2_verify_is_hmac_sha256_compare
    (payload : list byte + pystr) (signature secret : pystr) :
  (_verify_webhook_signature payload signature secret = Ret true
   <-> exists key msg,
         utf8_encode secret = Some key /\ raw_payload payload = Some msg
         /\ hexdigest (hmac_sha256 key msg) = signature)
  /\ (forall key msg,
        utf8_encode secret = Some key -> raw_payload payload = Some msg ->
        _verify_webhook_signature payload signature secret
        = compare_digest (hexdigest (hmac_sha256 key msg)) signature)
  /\ (forall b, payload = inl b -> utf8_decode b = None ->
        _verify_webhook_signature payload signature secret = Raise UnicodeDecodeError)
  /\ (raw_payload payload <> None -> utf8_encode secret = None ->
        _verify_webhook_signature payload signature secret = Raise UnicodeEncodeError)
  /\ (forall s, payload = inr s -> utf8_encode s = None ->
        _verify_webhook_signature payload signature secret = Raise UnicodeEncodeError).
Proof.
  assert (forall key msg,
             utf8_encode secret = Some key -> raw_payload payload = Some msg ->
             _verify_webhook_signature payload signature secret
             = compare_digest (hexdigest (hmac_sha256 key msg)) signature) as E.
  { intros key msg Hkey Hraw.
    unfold _verify_webhook_signature, bytes_decode, str_encode.
    destruct payload as [b | s]; simpl in Hraw.
    - destruct (utf8_decode b) as [s|] eqn:D; [|discriminate].
      injection Hraw as <-.
      rewrite Hkey, (utf8_decode_encode _ _ D). reflexivity.
    - rewrite Hkey, Hraw. reflexivity. }
  split; [|split; [exact E|split; [|split]]].
  - split.
    + destruct (utf8_encode secret) as [key|] eqn:Hkey.
      * destruct (raw_payload payload) as [msg|] eqn:Hraw.
        -- rewrite (E key msg eq_refl eq_refl). intros H.
           exists key, msg. repeat split.
           apply (compare_digest_true _ _ (hexdigest_ascii _)). exact H.
        -- unfold _verify_webhook_signature, bytes_decode, str_encode.
           destruct payload as [b | s]; simpl in Hraw.
           ++ destruct (utf8_decode b); discriminate.
           ++ rewrite Hkey, Hraw. discriminate.
      * unfold _verify_webhook_signature, bytes_decode, str_encode.
        destruct payload as [b | s].
        -- destruct (utf8_decode b); [rewrite Hkey|]; discriminate.
        -- rewrite Hkey. discriminate.
    + intros (key & msg & Hkey & Hraw & Hsig).
      rewrite (E key msg Hkey Hraw).
      apply (compare_digest_true _ _ (hexdigest_ascii _)). exact Hsig.
  - intros b -> D. apply verify_undecodable. exact D.
  - intros Hraw Hkey.
    unfold _verify_webhook_signature, bytes_decode, str_encode.
    destruct payload as [b | s]; simpl in Hraw.
    + destruct (utf8_decode b); [rewrite Hkey; reflexivity|congruence].
    + rewrite Hkey. reflexivity.
  - intros s -> Hs.
    unfold _verify_webhook_signature, bytes_decode, str_encode.
    destruct (utf8_encode secret); rewrite ?Hs; reflexivity.
Qed.

(** The check on the payload "a" under the secret "k", and under a secret
    that is a lone surrogate. *)
Lemma C2_verify_witness :
  utf8_encode [0x6b] = Some [x6b]
  /\ raw_payload (inl [x61]) = Some [x61]
  /\ _verify_webhook_signature (inl [x61]) [0x78] [0x6b]
     = compare_digest (hexdigest (hmac_sha256 [x6b] [x61])) [0x78]
  /\ utf8_encode [0xD800] = None
  /\ _verify_webhook_signature (inl [x61]) [0x78] [0xD800] = Raise UnicodeEncodeError.
Proof.
  split; [reflexivity|]. split; [reflexivity|].
  split; [|split; [reflexivity|]].
  - apply (proj1 (proj2 (C2_verify_is_hmac_sha256_compare (inl [x61]) [0x78] [0x6b])));
      reflexivity.
  - apply (proj1 (proj2 (proj2 (proj2
             (C2_verify_is_hmac_sha256_compare (inl [x61]) [0x78] [0xD800])))));
      [discriminate|reflexivity].
Defined.

End VerifySignature.

(* ===================================================================== *)
(** * Running the monad *)
(* ===================================================================== *)

Create HintDb run discriminated.
#[local] Hint Unfold bind ret raise lift emit try_except record
  search_active_provider tx_search requests_post response_json uuid4
  _post_process : run.

Ltac run := autounfold with run; cbn -[String.eqb STATUS_MAPPING].

(** Case analysis on the innermost truth test, and on a search answer. *)
Ltac case_truthy :=
  match goal with
  | |- context [truthy ?x] =>
    lazymatch x with
    | context [truthy _] => fail
    | _ => destruct (truthy x) eqn:?
    end
  end.

Ltac case_search :=
  match goal with
  | |- context [search_tx ?h ?l ?r ?p] => destruct (search_tx h l r p) eqn:?
  end.

Section RunLemmas.

Lemma transitions_app l1 l2 : transitions (l1 ++ l2) = transitions l1 ++ transitions l2.
Proof. apply List.filter_app. Qed.

Lemma new_events_app w l w' : log w' = log w ++ l -> new_events w w' = l.
Proof. intros H. unfold new_events. rewrite H. apply drop_app_length. Qed.

Lemma STATUS_MAPPING_values s st :
  STATUS_MAPPING !! s = Some st ->
  st = "done" \/ st = "pending" \/ st = "error" \/ st = "cancel".
Proof.
  unfold STATUS_MAPPING, STATUS_MAPPING_items. simpl.
  rewrite !lookup_insert. repeat case_decide; try rewrite lookup_empty;
    intros [= <-]; auto.
Qed.

End RunLemmas.

(* ===================================================================== *)
(** * Processing payment data *)
(* ===================================================================== *)

Section ProcessPaymentData.

Import Transaction.

Lemma process_bad_error_field :
  fst (_justifi_process_payment_data Samples.tx_pending
         (PDict {[ "status" := PStr "failed"; "error" := PNone ]})
         Samples.host_ok initial)
  = Raise (AttributeError "NoneType" "get")
  /\ transitions
       (log (snd (_justifi_process_payment_data Samples.tx_pending
                    (PDict {[ "status" := PStr "failed"; "error" := PNone ]})
                    Samples.host_ok initial)))
     = [].
Proof. split; vm_compute; reflexivity. Qed.

(** C3, as the specification words it, fails: on the dict
    {'status': 'failed', 'error': None} the status is a key of the table and
    maps to 'error', yet AttributeError is raised before _set_error is
    called. *)
Lemma C3_failed_with_null_error_no_transition :
  ~ (forall (self : transaction) (d : gmap string pyval) (s st : string)
            (h : env) (w : world),
       d !! "status" = Some (PStr s) ->
       STATUS_MAPPING !! s = Some st ->
       transitions (log (snd (_justifi_process_payment_data self (PDict d) h w)))
       = transitions (log w) ++ matching_transition (tx_id self) st d).
Proof.
  intros H.
  specialize (H Samples.tx_pending {[ "status" := PStr "failed"; "error" := PNone ]}
                "failed" "error" Samples.host_ok initial eq_refl eq_refl).
  destruct process_bad_error_field as [_ E]. rewrite E in H. discriminate H.
Qed.

Local Ltac split_ifs :=
  repeat match goal with
         | |- context [if ?c then _ else _] => destruct c eqn:?
         end.

Local Ltac close_run :=
  eexists; split; [reflexivity|];
  cbn [log]; rewrite ?transitions_app; cbn; rewrite ?app_nil_r, <- ?app_assoc;
  reflexivity.

(** C3 (amended): for every payment_data dict whose 'status' field is a key
    of the status table, and whose 'error' field, when the mapped state is
    'error', is absent or a dict, _justifi_process_payment_data returns and
    invokes exactly the transition matching the mapped local state: _set_done
    followed by _post_process for 'done', _set_pending for 'pending',
    _set_error for 'error' and _set_canceled for 'cancel'. *)
Theorem C3_process_invokes_matching_transition
    (self : transaction) (d : gmap string pyval) (s st : string) (h : env) (w : world) :
  d !! "status" = Some (PStr s) ->
  STATUS_MAPPING !! s = Some st ->
  (st = "error" -> dict_or_absent d "error") ->
  exists w',
    _justifi_process_payment_data self (PDict d) h w = (Ret tt, w')
    /\ transitions (log w')
       = transitions (log w) ++ matching_transition (tx_id self) st d.
Proof.
  intros Hs Hst Herr.
  unfold _justifi_process_payment_data. run.
  rewrite Hs. run. rewrite Hst. run.
  destruct (STATUS_MAPPING_values _ _ Hst) as [-> | [-> | [-> | ->]]];
    unfold matching_transition; cbn.
  - split_ifs; destruct (post_process_answer h _ _); close_run.
  - split_ifs; close_run.
  - specialize (Herr eq_refl). unfold dict_or_absent in Herr. unfold nested_get.
    destruct (d !! "error") as [[]|]; try contradiction; cbn; split_ifs; close_run.
  - split_ifs; close_run.
Qed.

(** A completed payment on a pending transaction. *)
Lemma C3_process_witness :
  ({[ "status" := PStr "completed" ]} : gmap string pyval) !! "status"
  = Some (PStr "completed")
  /\ STATUS_MAPPING !! "completed" = Some "done"
  /\ exists w',
       _justifi_process_payment_data Samples.tx_pending
         (PDict {[ "status" := PStr "completed" ]}) Samples.host_ok initial = (Ret tt, w')
       /\ transitions (log w')
          = transitions (log initial)
            ++ matching_transition (tx_id Samples.tx_pending) "done"
                 {[ "status" := PStr "completed" ]}.
Proof.
  split; [reflexivity|]. split; [reflexivity|].
  apply (C3_process_invokes_matching_transition Samples.tx_pending
           {[ "status" := PStr "completed" ]} "completed" "done");
    [reflexivity | reflexivity | discriminate].
Defined.

End ProcessPaymentData.

(* ===================================================================== *)
(** * The OAuth token exchange *)
(* ===================================================================== *)

Section AccessToken.

Import Provider.

Lemma access_token_non_json :
  fst (_justifi_get_access_token Samples.provider1 Samples.host_html initial)
  = Raise (JSONDecodeError "Expecting value: line 1 column 1 (char 0)").
Proof. vm_compute. reflexivity. Qed.

(** C6, as the specification words it, fails: when the token endpoint
    answers 200 with a body that is not JSON, the exception that leaves
    _justifi_get_access_token is the JSON decoding error, not
    ValidationError, and no token is returned. *)
Lemma C6_non_json_200_not_validation_error :
  ~ (forall (self : provider) (h : env) (w : world),
       (exists t, fst (_justifi_get_access_token self h w) = Ret t)
       \/ (exists m, fst (_justifi_get_access_token self h w) = Raise (ValidationError m))).
Proof.
  intros H.
  destruct (H Samples.provider1 Samples.host_html initial) as [[t E] | [m E]];
    rewrite access_token_non_json in E; discriminate E.
Qed.

(** C6 (amended): _justifi_get_access_token raises ValidationError, without
    sending anything, when a credential is missing; otherwise it sends the
    token request and raises ValidationError on a network error and on any
    status other than 200; on a 200 response whose body is a JSON object it
    returns the 'access_token' member when that is present and non-empty and
    raises ValidationError otherwise. *)
Theorem C6_access_token_outcomes (self : provider) (h : env) (w : world) :
  let run := _justifi_get_access_token self h w in
  let w1 := record (EvPost (token_request self)) w in
  (credentials_missing self = true ->
   exists m, run = (Raise (ValidationError m), w))
  /\ (credentials_missing self = false ->
      forall msg, post_answer h (log w) (token_request self) = PostFails msg ->
      exists m, run = (Raise (ValidationError m), w1))
  /\ (credentials_missing self = false ->
      forall a, post_answer h (log w) (token_request self) = PostAnswers a ->
      (status_code a <> 200 -> exists m, run = (Raise (ValidationError m), w1))
      /\ (status_code a = 200 ->
          forall d, resp_json a = inr (PDict d) ->
          let t := default PNone (d !! "access_token") in
          if truthy t then run = (Ret t, w1)
          else exists m, run = (Raise (ValidationError m), w1))).
Proof.
  cbv zeta. unfold _justifi_get_access_token.
  split; [|split].
  - intros ->. run. eauto.
  - intros -> msg Hp. run. rewrite Hp. run. eauto.
  - intros -> a Hp. run. rewrite Hp. run. split.
    + intros Hs. apply Z.eqb_neq in Hs. rewrite Hs. run. eauto.
    + intros Hs d Hd. rewrite Hs. run. rewrite Hd. run.
      destruct (truthy (default PNone (d !! "access_token"))); run; eauto.
Qed.

(** The token exchange against a host that answers 200 with a token. *)
Lemma C6_access_token_witness :
  credentials_missing Samples.provider1 = false
  /\ post_answer Samples.host_ok (log initial) (token_request Samples.provider1)
     = Samples.json_answer 200 Samples.token_body
  /\ _justifi_get_access_token Samples.provider1 Samples.host_ok initial
     = (Ret (PStr "tok"), record (EvPost (token_request Samples.provider1)) initial).
Proof.
  split; [reflexivity|]. split; [reflexivity|].
  destruct (C6_access_token_outcomes Samples.provider1 Samples.host_ok initial)
    as (_ & _ & H).
  destruct (H eq_refl _ eq_refl) as [_ H2].
  exact (H2 eq_refl _ eq_refl).
Defined.

End AccessToken.

(* ===================================================================== *)
(** * Finding the transaction of a notification *)
(* ===================================================================== *)

Section GetTransaction.

Import Transaction.

Lemma get_tx_null_data :
  fst (_justifi_get_tx_from_notification_data Samples.provider1
         (PDict {[ "data" := PNone ]}) Samples.host_ok initial)
  = Raise (AttributeError "NoneType" "get").
Proof. vm_compute. reflexivity. Qed.

(** C7, as the specification words it, fails: the notification
    {'data': None} carries neither a checkout id nor a payment id, and what
    is raised is AttributeError, not ValidationError. *)
Lemma C7_null_data_not_validation_error :
  ~ (forall (provider : Host.provider) (nd : gmap string pyval) (h : env) (w : world),
       truthy (dict_get nd "checkout_id" PNone) = false ->
       truthy (dict_get nd "successful_payment_id" PNone) = false ->
       nested_get nd "data" "id" PNone = PNone ->
       nested_get nd "data" "successful_payment_id" PNone = PNone ->
       exists m,
         fst (_justifi_get_tx_from_notification_data provider (PDict nd) h w)
         = Raise (ValidationError m)).
Proof.
  intros H.
  assert (exists m,
             fst (_justifi_get_tx_from_notification_data Samples.provider1
                    (PDict {[ "data" := PNone ]}) Samples.host_ok initial)
             = Raise (ValidationError m)) as [m E]
    by (apply H; vm_compute; reflexivity).
  rewrite get_tx_null_data in E. discriminate E.
Qed.

(** C7 (amended): for notification data whose 'data' member is absent or a
    dict whenever it is read (it is read unless both a checkout id and a
    payment id are given at the top level),
    _justifi_get_tx_from_notification_data raises ValidationError, without
    searching, when it carries neither a checkout id nor a payment id; when
    it carries a checkout id it searches the provider's transactions by
    provider_reference equal to the checkout id first and returns the match,
    and only if nothing matched (or there is no checkout id) searches by the
    payment id, if there is one; it raises ValidationError when no
    transaction matched. *)
Theorem C7_get_tx_from_notification_data
    (provider : Host.provider) (nd : gmap string pyval) (h : env) (w : world) :
  (truthy (dict_get nd "checkout_id" PNone)
   && truthy (dict_get nd "successful_payment_id" PNone) = false ->
   dict_or_absent nd "data") ->
  let c := notification_checkout_id nd in
  let p := notification_payment_id nd in
  let pid := provider_id provider in
  let run := _justifi_get_tx_from_notification_data provider (PDict nd) h w in
  let w1 := record (EvSearchTx c pid) w in
  let by_payment (w0 : world) :=
    (match search_tx h (log w0) p pid with
     | Some t => Ret t
     | None => Raise (ValidationError "JustiFi: Transaction not found")
     end, record (EvSearchTx p pid) w0) in
  match truthy c, truthy p with
  | false, false =>
    run = (Raise (ValidationError
                    "JustiFi: Missing checkout_id or payment_id in notification data"), w)
  | false, true => run = by_payment w
  | true, has_payment =>
    match search_tx h (log w) c pid with
    | Some t => run = (Ret t, w1)
    | None =>
      if has_payment then run = by_payment w1
      else run = (Raise (ValidationError "JustiFi: Transaction not found"), w1)
    end
  end.
Proof.
  intros Hshape. cbv zeta.
  unfold _justifi_get_tx_from_notification_data,
    notification_checkout_id, notification_payment_id, py_or, dict_get, nested_get.
  unfold dict_or_absent, dict_get in Hshape.
  run.
  destruct (truthy (default PNone (nd !! "checkout_id"))) eqn:Ha;
    destruct (truthy (default PNone (nd !! "successful_payment_id"))) eqn:Hb;
    cbn [andb] in Hshape; run;
    try (specialize (Hshape eq_refl);
         destruct (nd !! "data") as [[]|]; try contradiction;
         run; rewrite ?lookup_empty; cbn;
         repeat (case_truthy; run; rewrite ?lookup_empty; cbn));
    rewrite ?Ha, ?Hb; run;
    repeat case_search; run; cbn in *; congruence.
Qed.

(** A notification that carries the checkout id of a known transaction, and
    one that carries both ids beside a 'data' member that is None. *)
Lemma C7_get_tx_witness :
  _justifi_get_tx_from_notification_data Samples.provider1
    (PDict {[ "checkout_id" := PStr "cho_1" ]}) Samples.host_ok initial
  = (Ret Samples.tx_pending, record (EvSearchTx (PStr "cho_1") 1) initial)
  /\ _justifi_get_tx_from_notification_data Samples.provider1
       (PDict {[ "checkout_id" := PStr "cho_1"; "successful_payment_id" := PStr "py_1";
                 "data" := PNone ]}) Samples.host_ok initial
     = (Ret Samples.tx_pending, record (EvSearchTx (PStr "cho_1") 1) initial).
Proof.
  assert (forall nd : gmap string pyval,
             nd = {[ "checkout_id" := PStr "cho_1" ]} ->
             truthy (dict_get nd "checkout_id" PNone)
             && truthy (dict_get nd "successful_payment_id" PNone) = false ->
             dict_or_absent nd "data") as Hone
    by (intros nd -> _; vm_compute; exact I).
  assert (forall nd : gmap string pyval,
             nd = {[ "checkout_id" := PStr "cho_1"; "successful_payment_id" := PStr "py_1";
                     "data" := PNone ]} ->
             truthy (dict_get nd "checkout_id" PNone)
             && truthy (dict_get nd "successful_payment_id" PNone) = false ->
             dict_or_absent nd "data") as Hboth
    by (intros nd -> H; vm_compute in H; discriminate H).
  split.
  - exact (C7_get_tx_from_notification_data Samples.provider1 _ Samples.host_ok initial
             (Hone _ eq_refl)).
  - exact (C7_get_tx_from_notification_data Samples.provider1 _ Samples.host_ok initial
             (Hboth _ eq_refl)).
Defined.

End GetTransaction.

(* ===================================================================== *)
(** * What a run adds to the log *)
(* ===================================================================== *)

Section Emits.

Context (h : env).

Lemma emits_ret {A} (a : A) (Q : A -> Prop) P : Q a -> emits h (ret a) Q P.
Proof.
  intros HQ w. exists []. cbn. rewrite app_nil_r.
  repeat split; [constructor|]. intros a' [= <-]. exact HQ.
Qed.

Lemma emits_raise {A} (e : exn) (Q : A -> Prop) P : emits h (raise e) Q P.
Proof.
  intros w. exists []. cbn. rewrite app_nil_r.
  repeat split; [constructor|]. intros a' [=].
Qed.

Lemma emits_lift {A} (r : res A) (Q : A -> Prop) P :
  (forall a, r = Ret a -> Q a) -> emits h (lift r) Q P.
Proof.
  intros HQ w. exists []. cbn. rewrite app_nil_r.
  repeat split; [constructor|]. exact HQ.
Qed.

Lemma emits_emit (e : event) (Q : unit -> Prop) (P : event -> Prop) :
  P e -> Q tt -> emits h (emit e) Q P.
Proof.
  intros HP HQ w. exists [e]. cbn.
  repeat split; [repeat constructor; exact HP|]. intros [] _. exact HQ.
Qed.

Lemma emits_ret_any {A} (a : A) P : emits h (ret a) (fun _ => True) P.
Proof. apply emits_ret. exact I. Qed.

Lemma emits_lift_any {A} (r : res A) P : emits h (lift r) (fun _ => True) P.
Proof. apply emits_lift. intros. exact I. Qed.

Lemma emits_emit_any (e : event) (P : event -> Prop) :
  P e -> emits h (emit e) (fun _ => True) P.
Proof. intros HP. apply emits_emit; [exact HP | exact I]. Qed.

Lemma emits_bind {A B} (m : M A) (k : A -> M B) Q1 (Q : B -> Prop) P :
  emits h m Q1 P -> (forall a, Q1 a -> emits h (k a) Q P) -> emits h (bind m k) Q P.
Proof.
  intros Hm Hk w. destruct (Hm w) as (l1 & E1 & F1 & R1).
  unfold bind. destruct (m h w) as [[a|e] w1]; cbn in *.
  - destruct (Hk a (R1 a eq_refl) w1) as (l2 & E2 & F2 & R2).
    exists (l1 ++ l2). rewrite E2, E1, app_assoc.
    repeat split; [apply Forall_app; split; assumption | exact R2].
  - exists l1. repeat split; [assumption..|]. intros b [=].
Qed.

Lemma emits_try {A} (m : M A) (handler : exn -> M A) (Q : A -> Prop) P :
  emits h m Q P -> (forall e, emits h (handler e) Q P) ->
  emits h (try_except m handler) Q P.
Proof.
  intros Hm Hh w. destruct (Hm w) as (l1 & E1 & F1 & R1).
  unfold try_except. destruct (m h w) as [[a|e] w1]; cbn in *.
  - exists l1. repeat split; assumption.
  - destruct (Hh e w1) as (l2 & E2 & F2 & R2).
    exists (l1 ++ l2). rewrite E2, E1, app_assoc.
    repeat split; [apply Forall_app; split; assumption | exact R2].
Qed.

Lemma emits_weaken {A} (m : M A) (Q Q' : A -> Prop) (P P' : event -> Prop) :
  emits h m Q P -> (forall a, Q a -> Q' a) -> (forall e, P e -> P' e) ->
  emits h m Q' P'.
Proof.
  intros Hm HQ HP w. destruct (Hm w) as (l & E & F & R).
  exists l. repeat split; [exact E | | auto].
  eapply Forall_impl; [exact F | exact HP].
Qed.

Lemma emits_tx_search (r : pyval) (pid : Z) (P : event -> Prop) :
  P (EvSearchTx r pid) ->
  emits h (tx_search r pid) (fun a => forall t, a = Some t -> found h pid t) P.
Proof.
  intros HP w. exists [EvSearchTx r pid]. cbn.
  repeat split; [repeat constructor; exact HP|].
  intros a [= <-] t Ht. exists (log w), r. exact Ht.
Qed.

Lemma emits_search_provider (P : event -> Prop) :
  P EvSearchProvider -> emits h search_active_provider (fun _ => True) P.
Proof.
  intros HP w. exists [EvSearchProvider]. cbn.
  repeat split; repeat constructor; exact HP.
Qed.

Lemma emits_post_process (tx : transaction) (P : event -> Prop) :
  P (EvPostProcess (tx_id tx)) -> emits h (_post_process tx) (fun _ => True) P.
Proof.
  intros HP w. exists [EvPostProcess (tx_id tx)]. unfold _post_process.
  destruct (post_process_answer h (log w) (tx_id tx)); cbn;
    repeat split; repeat constructor; exact HP.
Qed.

(** From [emits] to the events between two worlds. *)
Lemma emits_new_events {A} (m : M A) (Q : A -> Prop) (P : event -> Prop) w e :
  emits h m Q P -> In e (new_events w (snd (m h w))) -> P e.
Proof.
  intros Hm Hin. destruct (Hm w) as (l & E & F & _).
  rewrite (new_events_app _ _ _ E) in Hin.
  rewrite Forall_forall in F. apply F. apply list_elem_of_In. exact Hin.
Qed.

End Emits.

(* ===================================================================== *)
(** * Webhook handlers and finished transactions *)
(* ===================================================================== *)

Section FinishedTransactions.

Import Transaction Webhook.

Context (h : env).

Local Ltac step :=
  first
    [ eapply emits_ret_any
    | apply emits_raise
    | eapply emits_emit_any; reflexivity
    | apply emits_post_process; reflexivity
    | eapply emits_lift_any
    | eapply emits_bind; [|intros ? ?]
    | apply emits_try; [|intros ?]
    | match goal with
      | |- emits _ (if ?c then _ else _) _ _ => destruct c eqn:?
      end ].

(** Everything [_justifi_process_payment_data] does, it does to [self]. *)
Lemma process_touches_self (self : transaction) (payment_data : pyval) :
  emits h (_justifi_process_payment_data self payment_data) (fun _ => True)
        (fun e => touched e = Some (tx_id self)).
Proof.
  unfold _justifi_process_payment_data. repeat step.
Qed.

Lemma not_finished_states (t : transaction) :
  not_finished t = true -> tx_state t <> "done" /\ tx_state t <> "cancel".
Proof.
  unfold not_finished. intros H%negb_true_iff%orb_false_elim.
  destruct H as [H1 H2]. apply String.eqb_neq in H1, H2. auto.
Qed.

Lemma touched_not_verify e i : touched e = Some i -> is_verify e = false.
Proof. destruct e; cbn; congruence. Qed.

Lemma untouched_handler_event pid e :
  touched e = None -> is_verify e = false -> handler_event h pid e.
Proof. intros Ht Hv. split; [|exact Hv]. intros i Hi. congruence. Qed.

Lemma process_handler_events (pid : Z) (t : transaction) (payment_data : pyval) :
  found h pid t -> not_finished t = true ->
  emits h (_justifi_process_payment_data t payment_data) (fun _ => True)
        (handler_event h pid).
Proof.
  intros Hf Hn. eapply emits_weaken; [apply process_touches_self | auto |].
  intros e He. split; [|exact (touched_not_verify _ _ He)].
  intros i Hi. exists t. rewrite He in Hi. injection Hi as <-.
  destruct (not_finished_states t Hn). auto.
Qed.

Lemma search_handler_event pid r : handler_event h pid (EvSearchTx r pid).
Proof. apply untouched_handler_event; reflexivity. Qed.

Lemma handle_success_events (provider : Host.provider) (event_data : pyval) :
  emits h (_handle_payment_success provider event_data) (fun _ => True)
        (handler_event h (provider_id provider)).
Proof.
  unfold _handle_payment_success.
  step; [step|]. step; [step|].
  eapply emits_bind with (Q1 := fun a => forall t, a = Some t -> found h (provider_id provider) t).
  { step; [apply emits_tx_search, search_handler_event|].
    apply emits_ret. intros t [=]. }
  intros tx Htx.
  eapply emits_bind with (Q1 := fun a => forall t, a = Some t -> found h (provider_id provider) t).
  { destruct tx as [t|].
    - apply emits_ret. exact Htx.
    - step; [apply emits_tx_search, search_handler_event|].
      apply emits_ret. intros t [=]. }
  intros [t|] Ht; [|step].
  destruct (not_finished t) eqn:Hn; [|step].
  step; [step|]. step; [step|].
  apply process_handler_events; auto.
Qed.

Lemma handle_failure_events (provider : Host.provider) (event_data : pyval) :
  emits h (_handle_payment_failure provider event_data) (fun _ => True)
        (handler_event h (provider_id provider)).
Proof.
  unfold _handle_payment_failure.
  step; [step|]. step; [step|]. step; [step|].
  eapply emits_bind; [apply emits_tx_search, search_handler_event|].
  intros [t|] Ht; [|step].
  destruct (not_finished t) eqn:Hn; [|step].
  step; [step|]. step; [step|].
  apply process_handler_events; auto.
Qed.

(** Handling an event ends with [{'status': 'ok'}] or an exception. *)
Lemma handle_event_events (provider : Host.provider) (event_type event_data : pyval) :
  emits h (handle_event provider event_type event_data) (fun r => r = StatusOk)
        (handler_event h (provider_id provider)).
Proof.
  unfold handle_event.
  eapply emits_bind with (Q1 := fun _ => True);
    [|intros; apply emits_ret; reflexivity].
  destruct (_ || _); [apply handle_success_events|].
  destruct (eq_str _ _); [apply handle_failure_events|step].
Qed.

Lemma guarded_handle_event_events (provider : Host.provider) (event_type event_data : pyval) :
  emits h (try_except (handle_event provider event_type event_data) error_result)
        ok_or_exception (handler_event h (provider_id provider)).
Proof.
  apply emits_try.
  - eapply emits_weaken; [apply handle_event_events | | auto].
    intros r ->. left. reflexivity.
  - intros e. apply emits_ret. right. eauto.
Qed.

(** [except Exception] leaves nothing raised. *)
Lemma guarded_returns {A} (m : M A) (handler : exn -> A) (w : world) :
  exists r, fst (try_except m (fun e => ret (handler e)) h w) = Ret r.
Proof.
  unfold try_except. destruct (m h w) as [[a|e] w']; cbn; eauto.
Qed.

Lemma webhook_events (request : Webhook.request) :
  emits h (justifi_webhook request) (fun _ => True)
        (fun e => exists pid, spares_finished h pid e).
Proof.
  assert (forall e, touched e = None -> exists pid, spares_finished h pid e) as Hnone.
  { intros e He. exists 0. intros i Hi. congruence. }
  unfold justifi_webhook.
  apply emits_try; [|intros e; unfold error_result; step].
  step; [step|]. step; [step|].
  eapply emits_bind; [apply emits_search_provider, Hnone; reflexivity|].
  intros [provider|] _; [|step].
  eapply emits_bind with (Q1 := fun _ => True).
  { destruct (_ && _).
    - step; [apply emits_emit_any, Hnone; reflexivity|]. step.
    - step. }
  intros valid _. destruct (negb valid); [step|].
  eapply emits_weaken; [apply handle_event_events | auto |].
  intros e [He _]. eauto.
Qed.

End FinishedTransactions.

Section FinishedTransactionsClaim.

Import Transaction Webhook.

(** C8: whatever the webhook handlers _handle_payment_success and
    _handle_payment_failure, and the webhook endpoint that calls them, do to
    a transaction (call _justifi_process_payment_data on it, write its
    provider reference, call one of its state setters), they do to a
    transaction that a search handed out with a state that is neither 'done'
    nor 'cancel'; a finished or canceled transaction is left alone. *)
Theorem C8_webhook_leaves_finished_transactions
    (h : env) (w : world) (provider : Host.provider) (event_data : pyval)
    (request : Webhook.request) (e : event) (i : Z) :
  touched e = Some i ->
  In e (new_events w (snd (_handle_payment_success provider event_data h w)))
  \/ In e (new_events w (snd (_handle_payment_failure provider event_data h w)))
  \/ In e (new_events w (snd (justifi_webhook request h w))) ->
  exists pid t,
    found h pid t /\ tx_id t = i /\ tx_state t <> "done" /\ tx_state t <> "cancel".
Proof.
  intros Hi [Hin | [Hin | Hin]].
  - apply (emits_new_events h _ _ _ _ _ (handle_success_events h provider event_data))
      in Hin as [Hs _].
    exists (provider_id provider). exact (Hs i Hi).
  - apply (emits_new_events h _ _ _ _ _ (handle_failure_events h provider event_data))
      in Hin as [Hs _].
    exists (provider_id provider). exact (Hs i Hi).
  - apply (emits_new_events h _ _ _ _ _ (webhook_events h request)) in Hin as [pid Hs].
    exists pid. exact (Hs i Hi).
Qed.

(** A success event for a pending transaction sets it done. *)
Lemma C8_webhook_witness :
  touched (EvSetDone 7) = Some 7
  /\ In (EvSetDone 7)
        (new_events initial
           (snd (_handle_payment_success Samples.provider1
                   (PDict {[ "id" := PStr "cho_1" ]}) Samples.host_ok initial)))
  /\ exists pid t,
       found Samples.host_ok pid t /\ tx_id t = 7
       /\ tx_state t <> "done" /\ tx_state t <> "cancel".
Proof.
  assert (In (EvSetDone 7)
            (new_events initial
               (snd (_handle_payment_success Samples.provider1
                       (PDict {[ "id" := PStr "cho_1" ]}) Samples.host_ok initial)))) as Hin.
  { vm_compute. tauto. }
  split; [reflexivity|]. split; [exact Hin|].
  apply (C8_webhook_leaves_finished_transactions Samples.host_ok initial Samples.provider1
           (PDict {[ "id" := PStr "cho_1" ]})
           {| jsonrequest := PNone; header_signature := None; httprequest_data := [] |}
           (EvSetDone 7) 7 eq_refl).
  left. exact Hin.
Defined.

End FinishedTransactionsClaim.

(* ===================================================================== *)
(** * The webhook endpoint and its signature gate *)
(* ===================================================================== *)

Section WebhookGate.

Import Webhook.

Lemma webhook_no_provider :
  justifi_webhook
    {| jsonrequest := PDict {[ "event_type" := PStr "payment.succeeded" ]};
       header_signature := None; httprequest_data := [] |}
    Samples.host_no_provider initial
  = (Ret (StatusError (Text "Provider not found")), record EvSearchProvider initial).
Proof. vm_compute. reflexivity. Qed.

(** C9, as the specification words it, fails: an event that carries no
    signature at all is answered with an error result when no active
    provider is found, so a present-but-invalid signature is not the only
    cause of an error result. *)
Lemma C9_error_result_without_signature :
  ~ (forall (request : Webhook.request) (h : env) (w : world) (m : pytext),
       fst (justifi_webhook request h w) = Ret (StatusError m) ->
       present (header_signature request) = true).
Proof.
  intros H.
  specialize (H {| jsonrequest := PDict {[ "event_type" := PStr "payment.succeeded" ]};
                   header_signature := None; httprequest_data := [] |}
                Samples.host_no_provider initial (Text "Provider not found")).
  rewrite webhook_no_provider in H. specialize (H eq_refl). discriminate H.
Qed.

(** C9 (amended): when the request body is a JSON object and an active
    provider is found, the webhook endpoint calls the signature check only
    when both a webhook secret is configured on the provider and the request
    carries a non-empty Justifi-Signature header; if either is missing, the
    event is processed without any signature check.  When the check is made,
    the event is processed if it returns True, answered with the
    'Invalid signature' error result if it returns False, and answered with
    the text of the exception if it raises.  Processing an event makes no
    signature check and ends with {'status': 'ok'} or with the error result
    of an exception. *)
Theorem C9_webhook_signature_gate
    (request : Webhook.request) (data : gmap string pyval)
    (provider : Host.provider) (h : env) (w : world) :
  jsonrequest request = PDict data ->
  search_provider h (log w) = Some provider ->
  let event_type := dict_get data "event_type" (PStr "") in
  let event_data := dict_get data "data" (PDict ∅) in
  let signature := default [] (header_signature request) in
  let secret := default [] (justifi_webhook_secret provider) in
  let w1 := record EvSearchProvider w in
  let w2 := record (EvVerify (httprequest_data request) signature secret) w1 in
  let process := try_except (handle_event provider event_type event_data) error_result in
  (if present (justifi_webhook_secret provider) && present (header_signature request)
   then match _verify_webhook_signature (inl (httprequest_data request)) signature secret with
        | Ret true => justifi_webhook request h w = process h w2
        | Ret false =>
          justifi_webhook request h w = (Ret (StatusError (Text "Invalid signature")), w2)
        | Raise e => justifi_webhook request h w = (Ret (StatusError (StrOf e)), w2)
        end
   else justifi_webhook request h w = process h w1)
  /\ forall w0, exists r,
       fst (process h w0) = Ret r /\ ok_or_exception r
       /\ forall e, In e (new_events w0 (snd (process h w0))) -> is_verify e = false.
Proof.
  intros Hdata Hprov. cbv zeta. split.
  - unfold justifi_webhook. rewrite Hdata.
    unfold dict_get. run. rewrite Hprov. cbn.
    destruct (present (justifi_webhook_secret provider) && present (header_signature request));
      run; [|reflexivity].
    destruct (_verify_webhook_signature _ _ _) as [[|]|e]; run; reflexivity.
  - intros w0.
    pose proof (guarded_handle_event_events h provider
                  (dict_get data "event_type" (PStr ""))
                  (dict_get data "data" (PDict ∅))) as He.
    destruct (guarded_returns h
                (handle_event provider (dict_get data "event_type" (PStr ""))
                   (dict_get data "data" (PDict ∅)))
                (fun e => StatusError (StrOf e)) w0) as [r Hr].
    exists r. split; [exact Hr|]. split.
    + destruct (He w0) as (_ & _ & _ & HQ). apply HQ. exact Hr.
    + intros e Hin. apply (emits_new_events h _ _ _ _ _ He) in Hin as [_ Hv]. exact Hv.
Qed.

End WebhookGate.

Section WebhookGateWitness.

Import Webhook.

(** An event without a signature header is processed unchecked. *)
Lemma C9_webhook_gate_witness :
  let request :=
    {| jsonrequest := PDict {[ "event_type" := PStr "payment.succeeded";
                               "data" := PDict {[ "id" := PStr "cho_2" ]} ]};
       header_signature := None; httprequest_data := [] |} in
  jsonrequest request
  = PDict {[ "event_type" := PStr "payment.succeeded";
             "data" := PDict {[ "id" := PStr "cho_2" ]} ]}
  /\ search_provider Samples.host_ok (log initial) = Some Samples.provider1
  /\ justifi_webhook request Samples.host_ok initial
     = try_except
         (handle_event Samples.provider1 (PStr "payment.succeeded")
            (PDict {[ "id" := PStr "cho_2" ]}))
         error_result Samples.host_ok (record EvSearchProvider initial).
Proof.
  cbv zeta. split; [reflexivity|]. split; [reflexivity|].
  destruct (C9_webhook_signature_gate
              {| jsonrequest := PDict {[ "event_type" := PStr "payment.succeeded";
                                         "data" := PDict {[ "id" := PStr "cho_2" ]} ]};
                 header_signature := None; httprequest_data := [] |}
              {[ "event_type" := PStr "payment.succeeded";
                 "data" := PDict {[ "id" := PStr "cho_2" ]} ]}
              Samples.provider1 Samples.host_ok initial eq_refl eq_refl) as [H _].
  exact H.
Defined.

End WebhookGateWitness.

(* ===================================================================== *)
(** * The text of a UUID *)
(* ===================================================================== *)

Section UuidText.


Lemma be_bytes_length (n : nat) (x : Z) : length (be_bytes n x) = n.
Proof.
  revert x. induction n as [|n IH]; intros x; cbn [be_bytes]; [reflexivity|].
  rewrite length_app, IH. cbn. lia.
Qed.










End UuidText.

(* ===================================================================== *)
(** * The terminal calls of the point of sale *)
(* ===================================================================== *)

Section Terminal.

Import Provider.

Lemma string_length_app (a b : string) :
  String.length (a +:+ b) = (String.length a + String.length b)%nat.
Proof. induction a as [|c a IH]; simpl; [reflexivity|]. f_equal. exact IH. Qed.

Lemma string_app_inv_head (s a b : string) : s +:+ a = s +:+ b -> a = b.
Proof. induction s as [|c s IH]; cbn; [auto|]. intros [= H]. auto. Qed.

(** The two terminal-pay URLs are different for every terminal id. *)
Lemma pay_urls_differ (terminal_id : string) :
  PosModel.TERMINALS_URL +:+ "/pay"
  <> PosController.TERMINALS_URL +:+ "/" +:+ terminal_id +:+ "/pay".
Proof.
  change PosController.TERMINALS_URL with PosModel.TERMINALS_URL.
  intros H%string_app_inv_head. cbn in H. injection H as H.
  apply (f_equal String.length) in H.
  rewrite !string_length_app in H. cbn in H. lia.
Qed.

(** The answer to a terminal-pay response touches nothing. *)
Lemma terminal_pay_answer_world (a : http_response) (h : env) (w : world) :
  snd (terminal_pay_answer a h w) = w.
Proof.
  unfold terminal_pay_answer. destruct (400 <=? status_code a); run; [reflexivity|].
  destruct (resp_json a) as [msg|v]; run; [reflexivity|].
  destruct (py_get v "data" v); reflexivity.
Qed.

(** Reading a terminal-cancel response raises nothing. *)
Lemma terminal_cancel_answer_run (a : http_response) (h : env) (w : world) :
  terminal_cancel_answer a h w = (Ret (cancel_value a), w).
Proof.
  unfold terminal_cancel_answer, cancel_value, response_json.
  destruct (resp_json a) as [msg|[]]; run; reflexivity.
Qed.


Section WithToken.

Context (h : env) (w w1 : world) (provider : Host.provider)
        (terminal_id : string) (checkout_id tok : pyval).
Hypothesis Htoken : _justifi_get_access_token provider h w = (Ret tok, w1).

Let key : string := uuid_str (uuid_of_random (os_urandom h (draws w1))).
Let w2 : world := {| log := log w1 ++ [EvUrandom (draws w1)]; draws := S (draws w1) |}.

Lemma model_send_run :
  PosModel._justifi_send_to_terminal provider terminal_id checkout_id h w
  = match post_answer h (log w2)
            (PosModel.pay_request provider terminal_id checkout_id tok key) with
    | PostFails msg =>
      (Raise (RequestException msg),
       record (EvPost (PosModel.pay_request provider terminal_id checkout_id tok key)) w2)
    | PostAnswers a =>
      terminal_pay_answer a h
        (record (EvPost (PosModel.pay_request provider terminal_id checkout_id tok key)) w2)
    end.
Proof.
  unfold PosModel._justifi_send_to_terminal. unfold bind at 1. rewrite Htoken.
  run. fold key. fold w2.
  destruct (post_answer h _ _); reflexivity.
Qed.

Lemma controller_send_run :
  PosController._send_to_terminal provider terminal_id checkout_id h w
  = match post_answer h (log w2)
            (PosController.pay_request provider terminal_id checkout_id tok key) with
    | PostFails msg =>
      (Raise (RequestException msg),
       record (EvPost (PosController.pay_request provider terminal_id checkout_id tok key)) w2)
    | PostAnswers a =>
      terminal_pay_answer a h
        (record (EvPost (PosController.pay_request provider terminal_id checkout_id tok key)) w2)
    end.
Proof.
  unfold PosController._send_to_terminal. unfold bind at 1. rewrite Htoken.
  run. fold key. fold w2.
  destruct (post_answer h _ _); reflexivity.
Qed.

Lemma cancel_action_run :
  PosModel._justifi_cancel_terminal_action provider terminal_id checkout_id h w
  = match post_answer h (log w1)
            (PosModel.cancel_request provider terminal_id checkout_id tok) with
    | PostFails msg =>
      (Raise (RequestException msg),
       record (EvPost (PosModel.cancel_request provider terminal_id checkout_id tok)) w1)
    | PostAnswers a =>
      (Ret (cancel_value a),
       record (EvPost (PosModel.cancel_request provider terminal_id checkout_id tok)) w1)
    end.
Proof.
  unfold PosModel._justifi_cancel_terminal_action. unfold bind at 1. rewrite Htoken.
  run. destruct (post_answer h _ _) as [msg|a]; run; [reflexivity|].
  rewrite terminal_cancel_answer_run. reflexivity.
Qed.

End WithToken.

End Terminal.

Section TerminalClaims.

Import Provider.

(** C4 (divergence): the two terminal-pay implementations do not issue the
    same request.  Whenever the access token is obtained,
    _justifi_send_to_terminal of the POS model posts to
    /v1/terminals/pay with the terminal id in the JSON body, while
    _send_to_terminal of the POS controller posts to
    /v1/terminals/<terminal_id>/pay with the checkout id alone in the body:
    for the same provider, terminal id and checkout id the two requests have
    different URLs and different JSON payloads. *)
Theorem C4_terminal_pay_requests_differ
    (h : env) (w w1 : world) (provider : Host.provider)
    (terminal_id : string) (checkout_id tok : pyval) :
  _justifi_get_access_token provider h w = (Ret tok, w1) ->
  let key := uuid_str (uuid_of_random (os_urandom h (draws w1))) in
  let by_model := PosModel.pay_request provider terminal_id checkout_id tok key in
  let by_controller := PosController.pay_request provider terminal_id checkout_id tok key in
  log (snd (PosModel._justifi_send_to_terminal provider terminal_id checkout_id h w))
  = log w1 ++ [EvUrandom (draws w1); EvPost by_model]
  /\ log (snd (PosController._send_to_terminal provider terminal_id checkout_id h w))
     = log w1 ++ [EvUrandom (draws w1); EvPost by_controller]
  /\ req_url by_model = "https://api.justifi.ai/v1/terminals/pay"
  /\ req_url by_controller
     = "https://api.justifi.ai/v1/terminals/" +:+ terminal_id +:+ "/pay"
  /\ req_url by_model <> req_url by_controller
  /\ req_json by_model !! "terminal_id" = Some (PStr terminal_id)
  /\ req_json by_controller !! "terminal_id" = None
  /\ req_json by_model <> req_json by_controller.
Proof.
  intros Htoken. cbv zeta.
  rewrite (model_send_run h w w1 provider terminal_id checkout_id tok Htoken).
  rewrite (controller_send_run h w w1 provider terminal_id checkout_id tok Htoken).
  assert (forall (r : http_request) (w0 : world),
             log (snd (match post_answer h (log w0) r with
                       | PostFails msg => (Raise (RequestException msg), record (EvPost r) w0)
                       | PostAnswers a => terminal_pay_answer a h (record (EvPost r) w0)
                       end))
             = log w0 ++ [EvPost r]) as Hlog.
  { intros r w0. destruct (post_answer h (log w0) r); [reflexivity|].
    rewrite terminal_pay_answer_world. reflexivity. }
  rewrite !Hlog. cbn [log]. rewrite <- !app_assoc.
  assert (req_json (PosModel.pay_request provider terminal_id checkout_id tok
                      (uuid_str (uuid_of_random (os_urandom h (draws w1))))) !! "terminal_id"
          = Some (PStr terminal_id)) as Hm by reflexivity.
  assert (req_json (PosController.pay_request provider terminal_id checkout_id tok
                      (uuid_str (uuid_of_random (os_urandom h (draws w1))))) !! "terminal_id"
          = None) as Hc by reflexivity.
  repeat split; try reflexivity.
  - apply pay_urls_differ.
  - intros E. rewrite E, Hc in Hm. discriminate Hm.
Qed.

(** The two requests for terminal trm_1 and checkout cho_1. *)
Lemma C4_terminal_pay_witness :
  _justifi_get_access_token Samples.provider1 Samples.host_ok initial
  = (Ret (PStr "tok"), record (EvPost (token_request Samples.provider1)) initial)
  /\ req_url (PosModel.pay_request Samples.provider1 "trm_1" (PStr "cho_1") (PStr "tok")
                "00010203-0405-4607-8809-0a0b0c0d0e0f")
     <> req_url (PosController.pay_request Samples.provider1 "trm_1" (PStr "cho_1")
                   (PStr "tok") "00010203-0405-4607-8809-0a0b0c0d0e0f").
Proof.
  assert (_justifi_get_access_token Samples.provider1 Samples.host_ok initial
          = (Ret (PStr "tok"), record (EvPost (token_request Samples.provider1)) initial))
    as Htoken by (vm_compute; reflexivity).
  split; [exact Htoken|].
  destruct (C4_terminal_pay_requests_differ Samples.host_ok initial _ Samples.provider1
              "trm_1" (PStr "cho_1") (PStr "tok") Htoken)
    as (_ & _ & _ & _ & Hurl & _).
  exact Hurl.
Defined.




(** C10, as the specification words it, fails: with an active provider and
    the access token obtained, a terminal-cancel call that gets no answer
    (here a read time-out) makes justifi_cancel_payment return
    {'error': ...}, not {'success': True, 'cancelled': True}. *)
Lemma C10_cancel_timeout_is_error :
  ~ (forall (h : env) (w w2 : world) (provider : Host.provider)
            (checkout_id tok : pyval) (terminal_id : string),
       search_provider h (log w) = Some provider ->
       _justifi_get_access_token provider h (record EvSearchProvider w) = (Ret tok, w2) ->
       fst (PosModel.justifi_cancel_payment checkout_id terminal_id h w)
       = Ret cancelled_result).
Proof.
  intros H.
  assert (fst (PosModel.justifi_cancel_payment (PStr "cho_1") "trm_1"
                 Samples.host_cancel_timeout initial)
          = Ret cancelled_result) as E.
  { eapply (H _ _ _ Samples.provider1 _ (PStr "tok")); vm_compute; reflexivity. }
  vm_compute in E. discriminate E.
Qed.

(** C10 (amended): whenever an active JustiFi provider exists, the access
    token is obtained and the terminal-cancel HTTP call is answered,
    justifi_cancel_payment returns {'success': True, 'cancelled': True}, even
    when the answer has an error status: on an answer
    _justifi_cancel_terminal_action never raises, whatever the status, and
    returns the 'data' member of the body, or the body itself when it has
    none, and the empty dict when the body is not a JSON object. *)
Theorem C10_cancel_payment_on_any_answer
    (h : env) (w w2 : world) (provider : Host.provider)
    (checkout_id tok : pyval) (terminal_id : string) (a : http_response) :
  search_provider h (log w) = Some provider ->
  _justifi_get_access_token provider h (record EvSearchProvider w) = (Ret tok, w2) ->
  post_answer h (log w2) (PosModel.cancel_request provider terminal_id checkout_id tok)
  = PostAnswers a ->
  let sent := EvPost (PosModel.cancel_request provider terminal_id checkout_id tok) in
  PosModel.justifi_cancel_payment checkout_id terminal_id h w
  = (Ret cancelled_result, record sent w2)
  /\ PosModel._justifi_cancel_terminal_action provider terminal_id checkout_id h
       (record EvSearchProvider w)
     = (Ret (cancel_value a), record sent w2).
Proof.
  intros Hprov Htoken Hpost. cbv zeta.
  pose proof (cancel_action_run h _ w2 provider terminal_id checkout_id tok Htoken) as Hrun.
  rewrite Hpost in Hrun. split; [|exact Hrun].
  unfold PosModel.justifi_cancel_payment, try_except, bind at 1.
  unfold search_active_provider. rewrite Hprov.
  unfold bind. rewrite Hrun. reflexivity.
Qed.

(** A cancellation that the terminal API refuses: the cancel request is
    answered 500 with a body that is not JSON. *)
Lemma C10_cancel_payment_witness :
  search_provider Samples.host_cancel_refused (log initial) = Some Samples.provider1
  /\ post_answer Samples.host_cancel_refused
       (log (record (EvPost (token_request Samples.provider1))
               (record EvSearchProvider initial)))
       (PosModel.cancel_request Samples.provider1 "trm_1" (PStr "cho_1") (PStr "tok"))
     = PostAnswers Samples.refused_answer
  /\ 400 <= status_code Samples.refused_answer
  /\ fst (PosModel.justifi_cancel_payment (PStr "cho_1") "trm_1"
            Samples.host_cancel_refused initial)
     = Ret cancelled_result
  /\ fst (PosModel._justifi_cancel_terminal_action Samples.provider1 "trm_1" (PStr "cho_1")
            Samples.host_cancel_refused (record EvSearchProvider initial))
     = Ret (PDict ∅).
Proof.
  assert (_justifi_get_access_token Samples.provider1 Samples.host_cancel_refused
            (record EvSearchProvider initial)
          = (Ret (PStr "tok"),
             record (EvPost (token_request Samples.provider1))
               (record EvSearchProvider initial))) as Htoken
    by (vm_compute; reflexivity).
  assert (post_answer Samples.host_cancel_refused
            (log (record (EvPost (token_request Samples.provider1))
                    (record EvSearchProvider initial)))
            (PosModel.cancel_request Samples.provider1 "trm_1" (PStr "cho_1") (PStr "tok"))
          = PostAnswers Samples.refused_answer) as Hpost
    by (vm_compute; reflexivity).
  split; [reflexivity|]. split; [exact Hpost|]. split; [cbn; lia|].
  destruct (C10_cancel_payment_on_any_answer Samples.host_cancel_refused initial _
              Samples.provider1 (PStr "cho_1") (PStr "tok") "trm_1" _ eq_refl Htoken Hpost)
    as [E1 E2].
  rewrite E1, E2. split; reflexivity.
Defined.

End TerminalClaims.

(* ===================================================================== *)
(** * UTF-8, the other way round, and the size of a digest *)
(* ===================================================================== *)

Section CodecMore.

Local Ltac arith := Z.div_mod_to_equations; lia.



End CodecMore.

Section DigestSize.

Lemma sha_round_length (st : list Z) (kw : Z * Z) :
  length (sha_round st kw) = length st.
Proof.
  unfold sha_round.
  destruct st as [|a [|b [|c [|d [|e [|f [|g [|i [|j st]]]]]]]]]; reflexivity.
Qed.

Lemma sha_rounds_length (kws : list (Z * Z)) (st : list Z) :
  length (fold_left sha_round kws st) = length st.
Proof.
  revert st. induction kws as [|kw kws IH]; intros st; cbn [fold_left]; [reflexivity|].
  rewrite IH. apply sha_round_length.
Qed.

Lemma sha_block_length (h block : list Z) : length (sha_block h block) = length h.
Proof.
  unfold sha_block.
  rewrite length_map, length_combine, sha_rounds_length. lia.
Qed.

Lemma sha_blocks_length (blocks : list (list Z)) (h : list Z) :
  length (fold_left sha_block blocks h) = length h.
Proof.
  revert h. induction blocks as [|b blocks IH]; intros h; cbn [fold_left]; [reflexivity|].
  rewrite IH. apply sha_block_length.
Qed.

(** A SHA-256 digest has 32 bytes, whatever the message. *)
Lemma sha256_length (msg : list byte) : length (sha256 msg) = 32%nat.
Proof.
  unfold sha256. rewrite length_map.
  set (h := fold_left sha_block _ H256).
  assert (length h = 8%nat) as Hh by (subst h; rewrite sha_blocks_length; reflexivity).
  destruct h as [|a [|b [|c [|d [|e [|f [|g [|i [|j h]]]]]]]]]; try discriminate Hh.
  cbn [map concat]. rewrite !length_app, !be_bytes_length. reflexivity.
Qed.

Lemma hmac_sha256_length (key msg : list byte) : length (hmac_sha256 key msg) = 32%nat.
Proof. unfold hmac_sha256. apply sha256_length. Qed.

Lemma hex_byte_lower (b : byte) : forallb is_hex_lower (hexdigest [b]) = true.
Proof. destruct b; reflexivity. Qed.

Lemma hexdigest_lower (d : list byte) : forallb is_hex_lower (hexdigest d) = true.
Proof.
  induction d as [|b r IH]; [reflexivity|].
  rewrite hexdigest_cons, forallb_app, IH, andb_true_r. apply hex_byte_lower.
Qed.

Lemma hexdigest_length (d : list byte) : length (hexdigest d) = (2 * length d)%nat.
Proof.
  induction d as [|b r IH]; [reflexivity|].
  rewrite hexdigest_cons, length_app, IH. cbn. lia.
Qed.

End DigestSize.

(* ===================================================================== *)
(** * More on the webhook signature check *)
(* ===================================================================== *)

Section VerifyMore.

Import Webhook.



(** X2: a signature that _verify_webhook_signature accepts is made of
    exactly 64 lower-case hexadecimal digits; an empty, shortened, padded or
    upper-case signature is never accepted. *)
Theorem X2_accepted_signature_is_64_hex_digits
    (payload : list byte + pystr) (signature secret : pystr) :
  _verify_webhook_signature payload signature secret = Ret true ->
  length signature = 64%nat /\ forallb is_hex_lower signature = true.
Proof.
  unfold _verify_webhook_signature. intros H.
  destruct (match payload with inl b => bytes_decode b | inr s => Ret s end)
    as [text|e]; [|discriminate].
  destruct (str_encode secret) as [key|e]; [|discriminate].
  destruct (str_encode text) as [msg|e]; [|discriminate].
  apply compare_digest_true in H; [|apply hexdigest_ascii]. subst signature.
  split; [|apply hexdigest_lower].
  rewrite hexdigest_length, hmac_sha256_length. reflexivity.
Qed.

(** The right signature of the payload "a" under the secret "k". *)
Lemma X2_accepted_signature_witness :
  _verify_webhook_signature (inl [x61]) (hexdigest (hmac_sha256 [x6b] [x61])) [0x6b]
  = Ret true
  /\ length (hexdigest (hmac_sha256 [x6b] [x61])) = 64%nat
  /\ forallb is_hex_lower (hexdigest (hmac_sha256 [x6b] [x61])) = true.
Proof.
  assert (_verify_webhook_signature (inl [x61]) (hexdigest (hmac_sha256 [x6b] [x61])) [0x6b]
          = Ret true) as H by (vm_compute; reflexivity).
  split; [exact H|].
  exact (X2_accepted_signature_is_64_hex_digits _ _ _ H).
Defined.

Lemma present_cons (s : pystr) : s <> [] -> present (Some s) = true.
Proof. destruct s; [congruence | reflexivity]. Qed.

(** X3: when the body is a JSON object whose raw bytes are UTF-8, an active
    provider is found whose webhook secret is set, not empty and can be
    encoded, and the Justifi-Signature header holds a character outside
    ASCII, the signature check does not answer False: compare_digest raises
    TypeError, and the webhook endpoint answers with the error result of
    that exception, after the check and without processing the event. *)
Theorem X3_non_ascii_signature_is_an_exception
    (request : Webhook.request) (data : gmap string pyval) (provider : Host.provider)
    (h : env) (w : world) (secret signature text : pystr) (key : list byte) :
  jsonrequest request = PDict data ->
  search_provider h (log w) = Some provider ->
  justifi_webhook_secret provider = Some secret ->
  secret <> [] ->
  utf8_encode secret = Some key ->
  header_signature request = Some signature ->
  is_ascii signature = false ->
  utf8_decode (httprequest_data request) = Some text ->
  justifi_webhook request h w
  = (Ret (StatusError
            (StrOf (TypeError "comparing strings with non-ASCII characters is not supported"))),
     record (EvVerify (httprequest_data request) signature secret)
       (record EvSearchProvider w)).
Proof.
  intros Hdata Hprov Hsecret Hne Hkey Hsig Hascii Hdec.
  assert (signature <> []) as Hsne by (intros ->; discriminate Hascii).
  unfold justifi_webhook. rewrite Hdata. run. rewrite Hprov. cbn.
  rewrite Hsecret, Hsig, !present_cons by assumption. run.
  unfold _verify_webhook_signature, bytes_decode, str_encode, compare_digest.
  rewrite Hdec, Hkey, (utf8_decode_encode _ _ Hdec), Hascii, andb_false_r.
  reflexivity.
Qed.

Lemma X3_non_ascii_signature_witness :
  let request :=
    {| jsonrequest := PDict {[ "event_type" := PStr "payment.succeeded" ]};
       header_signature := Some [0xE9]; httprequest_data := [x61] |} in
  is_ascii [0xE9] = false
  /\ utf8_decode [x61] = Some [0x61]
  /\ justifi_webhook request Samples.host_ok initial
     = (Ret (StatusError
               (StrOf (TypeError
                         "comparing strings with non-ASCII characters is not supported"))),
        record (EvVerify [x61] [0xE9] (str_of_string "k"))
          (record EvSearchProvider initial)).
Proof.
  cbv zeta. split; [reflexivity|]. split; [reflexivity|].
  apply (X3_non_ascii_signature_is_an_exception
           {| jsonrequest := PDict {[ "event_type" := PStr "payment.succeeded" ]};
              header_signature := Some [0xE9]; httprequest_data := [x61] |}
           {[ "event_type" := PStr "payment.succeeded" ]}
           Samples.provider1 Samples.host_ok initial
           (str_of_string "k") [0xE9] [0x61] [x6b]);
    try reflexivity.
  discriminate.
Defined.

End VerifyMore.

(* ===================================================================== *)
(** * More on processing payment data *)
(* ===================================================================== *)

Section ProcessMore.

Import Transaction.

Lemma status_lookup_values (v : pyval) (st : string) :
  status_lookup v = Ret st ->
  st = "done" \/ st = "pending" \/ st = "error" \/ st = "cancel".
Proof.
  destruct v as [| | |s| |]; unfold status_lookup;
    try discriminate; try (intros [= <-]; solve [auto]).
  destruct (STATUS_MAPPING !! s) as [x|] eqn:E; cbn; intros [= <-]; [|auto].
  exact (STATUS_MAPPING_values _ _ E).
Qed.

Lemma reference_writes_app l1 l2 :
  reference_writes (l1 ++ l2) = reference_writes l1 ++ reference_writes l2.
Proof. apply List.filter_app. Qed.

Local Ltac split_ifs :=
  repeat match goal with
         | |- context [if ?c then _ else _] => destruct c eqn:?
         end.

Local Ltac close_run :=
  eexists _, _; split; [reflexivity|]; cbn [log];
  rewrite <- ?app_assoc; split; [reflexivity|];
  split; cbn; reflexivity.

(** The run of [_justifi_process_payment_data] on a dict whose status can be
    looked up. *)
Lemma process_dict_run
    (self : transaction) (d : gmap string pyval) (st : string) (h : env) (w : world) :
  status_lookup (dict_get d "status" (PStr "")) = Ret st ->
  (st = "error" -> dict_or_absent d "error") ->
  exists w' l,
    _justifi_process_payment_data self (PDict d) h w = (Ret tt, w')
    /\ log w' = log w ++ l
    /\ transitions l = matching_transition (tx_id self) st d
    /\ reference_writes l = reference_write self d.
Proof.
  intros Hst Herr. unfold dict_get in Hst.
  unfold _justifi_process_payment_data.
  autounfold with run. cbn -[String.eqb STATUS_MAPPING status_lookup].
  rewrite Hst. cbn -[String.eqb STATUS_MAPPING status_lookup].
  unfold reference_write, py_or, dict_get, matching_transition.
  destruct (status_lookup_values _ _ Hst) as [-> | [-> | [-> | ->]]]; cbn.
  - split_ifs; destruct (post_process_answer h _ _); close_run.
  - split_ifs; close_run.
  - specialize (Herr eq_refl). unfold dict_or_absent in Herr. unfold nested_get.
    destruct (d !! "error") as [[]|]; try contradiction; cbn; split_ifs; close_run.
  - split_ifs; close_run.
Qed.

Lemma new_events_of_log (w w' : world) (l : list event) :
  log w' = log w ++ l -> new_events w w' = l.
Proof. apply new_events_app. Qed.

(** X4: a payment data dict whose status is missing, is a string the status
    table has no entry for, or is not a string at all (a list or a dict
    apart), is handled as 'pending': _justifi_process_payment_data returns
    and the only state setter it calls is _set_pending. *)
Theorem X4_unknown_status_is_pending
    (self : transaction) (d : gmap string pyval) (h : env) (w : world) :
  unknown_status (d !! "status") = true ->
  exists w',
    _justifi_process_payment_data self (PDict d) h w = (Ret tt, w')
    /\ transitions (new_events w w') = [EvSetPending (tx_id self)].
Proof.
  intros Hu.
  assert (status_lookup (dict_get d "status" (PStr "")) = Ret "pending") as Hst.
  { unfold dict_get, unknown_status in *.
    destruct (d !! "status") as [[| | |s| |]|]; try discriminate Hu; try reflexivity.
    unfold status_lookup. cbn [default from_option id].
    destruct (STATUS_MAPPING !! s); [discriminate Hu | reflexivity]. }
  destruct (process_dict_run self d "pending" h w Hst) as (w' & l & E & Hl & Ht & _);
    [discriminate|].
  exists w'. split; [exact E|].
  rewrite (new_events_of_log _ _ _ Hl). exact Ht.
Qed.

(** A payment data dict with a status JustiFi does not list. *)
Lemma X4_unknown_status_witness :
  unknown_status (({[ "status" := PStr "refunded" ]} : gmap string pyval) !! "status") = true
  /\ exists w',
       _justifi_process_payment_data Samples.tx_pending
         (PDict {[ "status" := PStr "refunded" ]}) Samples.host_ok initial = (Ret tt, w')
       /\ transitions (new_events initial w') = [EvSetPending 7].
Proof.
  split; [reflexivity|].
  apply (X4_unknown_status_is_pending Samples.tx_pending {[ "status" := PStr "refunded" ]}).
  reflexivity.
Defined.

(** X5: a payment data dict whose status is a list or a dict cannot be
    looked up in the status table: _justifi_process_payment_data raises
    TypeError before it writes the provider reference or calls any state
    setter. *)
Theorem X5_unhashable_status_raises
    (self : transaction) (d : gmap string pyval) (v : pyval) (h : env) (w : world) :
  d !! "status" = Some v ->
  type_name v = "list" \/ type_name v = "dict" ->
  exists msg,
    _justifi_process_payment_data self (PDict d) h w
    = (Raise (TypeError msg), record (EvProcess (tx_id self) (PDict d)) w).
Proof.
  intros Hv Hty. unfold _justifi_process_payment_data.
  autounfold with run. cbn -[String.eqb STATUS_MAPPING status_lookup]. rewrite Hv.
  destruct v; cbn in Hty; destruct Hty as [Hty | Hty]; try discriminate Hty;
    cbn; split_ifs; eauto.
Qed.

Lemma X5_unhashable_status_witness :
  ({[ "status" := PList [] ]} : gmap string pyval) !! "status" = Some (PList [])
  /\ exists msg,
       _justifi_process_payment_data Samples.tx_pending
         (PDict {[ "status" := PList [] ]}) Samples.host_ok initial
       = (Raise (TypeError msg),
          record (EvProcess 7 (PDict {[ "status" := PList [] ]})) initial).
Proof.
  split; [reflexivity|].
  apply (X5_unhashable_status_raises Samples.tx_pending {[ "status" := PList [] ]}
           (PList [])); [reflexivity | left; reflexivity].
Defined.

Local Ltac no_writes :=
  try match goal with
      | H : _ && false = true |- _ => rewrite andb_false_r in H; discriminate H
      end;
  unfold new_events; cbn [log snd fst]; rewrite <- ?app_assoc, ?app_nil_r;
  first [ rewrite drop_app_length | rewrite drop_all ]; reflexivity.

(** X6: a transaction that already has a provider reference keeps it unless
    the payment data carry a successful payment id: without one,
    _justifi_process_payment_data never writes provider_reference, whatever
    else the payment data hold. *)
Theorem X6_stored_reference_is_kept
    (self : transaction) (d : gmap string pyval) (h : env) (w : world) :
  truthy (dict_get d "successful_payment_id" (PStr "")) = false ->
  truthy (char_field (provider_reference self)) = true ->
  reference_writes
    (new_events w (snd (_justifi_process_payment_data self (PDict d) h w))) = [].
Proof.
  unfold dict_get. intros Hpay Href. unfold _justifi_process_payment_data.
  autounfold with run. cbn -[String.eqb STATUS_MAPPING status_lookup].
  rewrite Hpay, Href.
  destruct (status_lookup (default (PStr "") (d !! "status"))) as [st|e] eqn:Hst.
  - destruct (status_lookup_values _ _ Hst) as [-> | [-> | [-> | ->]]]; cbn;
      split_ifs; try destruct (post_process_answer h _ _);
      try (destruct (d !! "error") as [[]|]; cbn); no_writes.
  - cbn; split_ifs; no_writes.
Qed.

Lemma X6_stored_reference_witness :
  truthy (dict_get ({[ "status" := PStr "completed"; "id" := PStr "cho_9" ]}
                      : gmap string pyval) "successful_payment_id" (PStr "")) = false
  /\ truthy (char_field (provider_reference Samples.tx_pending)) = true
  /\ reference_writes
       (new_events initial
          (snd (_justifi_process_payment_data Samples.tx_pending
                  (PDict {[ "status" := PStr "completed"; "id" := PStr "cho_9" ]})
                  Samples.host_ok initial))) = [].
Proof.
  split; [reflexivity|]. split; [reflexivity|].
  apply X6_stored_reference_is_kept; reflexivity.
Defined.

End ProcessMore.

(* ===================================================================== *)
(** * More on the webhook endpoint *)
(* ===================================================================== *)

Section WebhookMore.

Import Transaction Webhook.

Local Ltac step :=
  first
    [ eapply emits_ret_any
    | apply emits_raise
    | eapply emits_lift_any
    | eapply emits_bind; [|intros ? ?]
    | match goal with
      | |- emits _ (if ?c then _ else _) _ _ => destruct c eqn:?
      end ].

(** The four answers of the webhook endpoint. *)
Lemma webhook_answers (h : env) (request : Webhook.request) :
  emits h (justifi_webhook request)
        (fun r => r = StatusOk
                  \/ r = StatusError (Text "Provider not found")
                  \/ r = StatusError (Text "Invalid signature")
                  \/ exists e, r = StatusError (StrOf e))
        (fun _ => True).
Proof.
  unfold justifi_webhook.
  apply emits_try;
    [|intros e; apply emits_ret; right; right; right; eauto].
  step; [step|]. step; [step|].
  eapply emits_bind; [apply emits_search_provider; exact I|].
  intros [provider|] _; [|apply emits_ret; auto].
  eapply emits_bind with (Q1 := fun _ => True).
  { destruct (_ && _).
    - step; [apply emits_emit_any; exact I|]. step.
    - step. }
  intros valid _. destruct (negb valid); [apply emits_ret; auto|].
  eapply emits_weaken; [apply handle_event_events | | auto].
  intros r ->. auto.
Qed.

(** X7: the webhook endpoint never lets an exception out: for every
    request and host it answers, and its answer is {'status': 'ok'}, the
    error 'Provider not found', the error 'Invalid signature', or the error
    whose message is the text of an exception it caught. *)
Theorem X7_webhook_always_answers
    (request : Webhook.request) (h : env) (w : world) :
  exists r,
    fst (justifi_webhook request h w) = Ret r
    /\ (r = StatusOk
        \/ r = StatusError (Text "Provider not found")
        \/ r = StatusError (Text "Invalid signature")
        \/ exists e, r = StatusError (StrOf e)).
Proof.
  destruct (guarded_returns h
              (let data := jsonrequest request in
               event_type <- lift (py_get data "event_type" (PStr "")) ;;
               event_data <- lift (py_get data "data" (PDict ∅)) ;;
               let signature := default [] (header_signature request) in
               provider <- search_active_provider ;;
               match provider with
               | None => ret (StatusError (Text "Provider not found"))
               | Some provider =>
                 let secret := default [] (justifi_webhook_secret provider) in
                 valid <-
                   (if present (justifi_webhook_secret provider)
                       && present (header_signature request)
                    then emit (EvVerify (httprequest_data request) signature secret) ;;;
                         lift (_verify_webhook_signature
                                 (inl (httprequest_data request)) signature secret)
                    else ret true) ;;
                 if negb valid
                 then ret (StatusError (Text "Invalid signature"))
                 else handle_event provider event_type event_data
               end)
              (fun e => StatusError (StrOf e)) w) as [r Hr].
  change (fst (justifi_webhook request h w) = Ret r) in Hr.
  exists r. split; [exact Hr|].
  destruct (webhook_answers h request w) as (_ & _ & _ & HQ). exact (HQ r Hr).
Qed.

(** X8: an event whose type is not payment.succeeded, checkout.completed
    or payment.failed is acknowledged and nothing else happens: when the
    body is a JSON object, an active provider is found and no signature
    check is due, the webhook endpoint answers {'status': 'ok'} and has done
    nothing but look for the provider. *)
Theorem X8_unhandled_event_is_acknowledged
    (request : Webhook.request) (data : gmap string pyval) (provider : Host.provider)
    (h : env) (w : world) :
  jsonrequest request = PDict data ->
  search_provider h (log w) = Some provider ->
  present (justifi_webhook_secret provider) && present (header_signature request) = false ->
  handled_event_type (dict_get data "event_type" (PStr "")) = false ->
  justifi_webhook request h w = (Ret StatusOk, record EvSearchProvider w).
Proof.
  intros Hdata Hprov Hgate Htype.
  unfold handled_event_type, dict_get in Htype.
  apply orb_false_elim in Htype as [Htype Hfailed].
  unfold justifi_webhook, handle_event. rewrite Hdata. run.
  rewrite Hprov. cbn. rewrite Hgate. run. rewrite Htype, Hfailed. reflexivity.
Qed.

Lemma X8_unhandled_event_witness :
  let request :=
    {| jsonrequest := PDict {[ "event_type" := PStr "payout.created" ]};
       header_signature := None; httprequest_data := [] |} in
  handled_event_type (PStr "payout.created") = false
  /\ justifi_webhook request Samples.host_ok initial
     = (Ret StatusOk, record EvSearchProvider initial).
Proof.
  cbv zeta. split; [reflexivity|].
  apply (X8_unhandled_event_is_acknowledged _ {[ "event_type" := PStr "payout.created" ]}
           Samples.provider1); reflexivity.
Defined.

Local Ltac run_handler :=
  autounfold with run;
  cbn -[String.eqb STATUS_MAPPING status_lookup _justifi_process_payment_data].

(** X9: the success handler overwrites the status of the event with
    'completed' before it processes it: when the event data is a dict with
    an id under which the search finds a transaction that is not done or
    canceled, _handle_payment_success returns and the state setters it calls
    are _set_done followed by post-processing, whatever status the event
    itself carried. *)
Theorem X9_success_event_sets_done
    (provider : Host.provider) (d : gmap string pyval) (t : transaction)
    (h : env) (w : world) :
  truthy (dict_get d "id" (PStr "")) = true ->
  search_tx h (log w) (dict_get d "id" (PStr "")) (provider_id provider) = Some t ->
  not_finished t = true ->
  exists w',
    _handle_payment_success provider (PDict d) h w = (Ret tt, w')
    /\ transitions (new_events w w') = [EvSetDone (tx_id t); EvPostProcess (tx_id t)].
Proof.
  unfold dict_get. intros Hid Hsearch Hn.
  set (d' := <["checkout_id" := default (PStr "") (d !! "id")]>
               (<["status" := PStr "completed"]> d)).
  assert (status_lookup (dict_get d' "status" (PStr "")) = Ret "done") as Hst.
  { unfold dict_get, d'. rewrite lookup_insert_ne, lookup_insert_eq by discriminate.
    reflexivity. }
  destruct (process_dict_run t d' "done" h
              (record (EvSearchTx (default (PStr "") (d !! "id")) (provider_id provider)) w)
              Hst) as (w' & l & E & Hl & Ht & _); [discriminate|].
  exists w'. split.
  - unfold _handle_payment_success. run_handler.
    rewrite Hid. run_handler. rewrite Hsearch. run_handler. rewrite Hn. run_handler.
    fold d'. unfold record in E. rewrite E. reflexivity.
  - cbn [record log] in Hl. rewrite <- app_assoc in Hl.
    rewrite (new_events_of_log _ _ _ Hl).
    unfold transitions in *. cbn [app List.filter is_transition]. exact Ht.
Qed.

(** An event that says 'failed' and comes through the success handler. *)
Lemma X9_success_event_witness :
  truthy (dict_get ({[ "id" := PStr "cho_1"; "status" := PStr "failed" ]}
                      : gmap string pyval) "id" (PStr "")) = true
  /\ not_finished Samples.tx_pending = true
  /\ exists w',
       _handle_payment_success Samples.provider1
         (PDict {[ "id" := PStr "cho_1"; "status" := PStr "failed" ]})
         Samples.host_ok initial = (Ret tt, w')
       /\ transitions (new_events initial w') = [EvSetDone 7; EvPostProcess 7].
Proof.
  split; [reflexivity|]. split; [reflexivity|].
  apply (X9_success_event_sets_done Samples.provider1
           {[ "id" := PStr "cho_1"; "status" := PStr "failed" ]} Samples.tx_pending);
    reflexivity.
Defined.

(** X10: the failure handler reads the error message before it searches:
    when the event data is a dict whose 'error' member is absent or a dict
    and the search by its id finds a transaction that is not done or
    canceled, _handle_payment_failure returns and the one state setter it
    calls is _set_error, with the event's error message or the default
    'Payment failed'. *)
Theorem X10_failure_event_sets_error
    (provider : Host.provider) (d : gmap string pyval) (t : transaction)
    (h : env) (w : world) :
  dict_or_absent d "error" ->
  search_tx h (log w) (dict_get d "id" (PStr "")) (provider_id provider) = Some t ->
  not_finished t = true ->
  exists w',
    _handle_payment_failure provider (PDict d) h w = (Ret tt, w')
    /\ transitions (new_events w w')
       = [EvSetError (tx_id t) (nested_get d "error" "message" (PStr "Payment failed"))].
Proof.
  unfold dict_get. intros Hshape Hsearch Hn.
  set (d' := <["checkout_id" := default (PStr "") (d !! "id")]>
               (<["status" := PStr "failed"]> d)).
  assert (d' !! "error" = d !! "error") as Herror
    by (unfold d'; rewrite !lookup_insert_ne by discriminate; reflexivity).
  assert (status_lookup (dict_get d' "status" (PStr "")) = Ret "error") as Hst.
  { unfold dict_get, d'. rewrite lookup_insert_ne, lookup_insert_eq by discriminate.
    reflexivity. }
  destruct (process_dict_run t d' "error" h
              (record (EvSearchTx (default (PStr "") (d !! "id")) (provider_id provider)) w)
              Hst) as (w' & l & E & Hl & Ht & _).
  { intros _. unfold dict_or_absent in *. rewrite Herror. exact Hshape. }
  exists w'. split.
  - unfold _handle_payment_failure. run_handler.
    unfold dict_or_absent in Hshape.
    destruct (d !! "error") as [[]|]; try contradiction; run_handler;
      rewrite Hsearch; run_handler; rewrite Hn; run_handler; fold d';
      unfold record in E; rewrite E; reflexivity.
  - cbn [record log] in Hl. rewrite <- app_assoc in Hl.
    rewrite (new_events_of_log _ _ _ Hl).
    unfold transitions in *. cbn [app List.filter is_transition]. rewrite Ht.
    unfold matching_transition, nested_get. cbn. rewrite Herror. reflexivity.
Qed.

Lemma X10_failure_event_witness :
  dict_or_absent ({[ "id" := PStr "cho_1" ]} : gmap string pyval) "error"
  /\ not_finished Samples.tx_pending = true
  /\ exists w',
       _handle_payment_failure Samples.provider1 (PDict {[ "id" := PStr "cho_1" ]})
         Samples.host_ok initial = (Ret tt, w')
       /\ transitions (new_events initial w')
          = [EvSetError 7 (nested_get ({[ "id" := PStr "cho_1" ]} : gmap string pyval)
                             "error" "message" (PStr "Payment failed"))].
Proof.
  assert (dict_or_absent ({[ "id" := PStr "cho_1" ]} : gmap string pyval) "error")
    as Hshape by (vm_compute; exact I).
  split; [exact Hshape|]. split; [reflexivity|].
  apply (X10_failure_event_sets_error Samples.provider1 {[ "id" := PStr "cho_1" ]}
           Samples.tx_pending); [exact Hshape | reflexivity | reflexivity].
Defined.

End WebhookMore.

(* ===================================================================== *)
(** * More on the provider: tokens, checkouts, constraints *)
(* ===================================================================== *)

Section ProviderMoreFacts.

Import Provider ProviderMore.

(** What the token exchange adds to the log. *)
Lemma access_token_log (self : provider) (h : env) (w : world) :
  exists l,
    log (snd (_justifi_get_access_token self h w)) = log w ++ l
    /\ (l = [] \/ l = [EvPost (token_request self)]).
Proof.
  unfold _justifi_get_access_token.
  destruct (credentials_missing self); run.
  { exists []. rewrite app_nil_r. auto. }
  exists [EvPost (token_request self)]. split; [|auto].
  destruct (post_answer h (log w) (token_request self)) as [msg|a]; run; [reflexivity|].
  destruct (status_code a =? 200); run; [|reflexivity].
  destruct (resp_json a) as [msg|v]; run; [reflexivity|].
  destruct (py_get v "access_token" PNone) as [t|e]; run; [|reflexivity].
  destruct (truthy t); reflexivity.
Qed.

(** The world after the token exchange. *)
Lemma access_token_world (self : provider) (h : env) (w : world) :
  (credentials_missing self = true ->
   _justifi_get_access_token self h w
   = (Raise (ValidationError "JustiFi Client ID and Client Secret are required."), w))
  /\ (credentials_missing self = false ->
      snd (_justifi_get_access_token self h w) = record (EvPost (token_request self)) w).
Proof.
  unfold _justifi_get_access_token.
  destruct (credentials_missing self); run; (split; [|discriminate || intros _]);
    try discriminate; try reflexivity.
  destruct (post_answer h (log w) (token_request self)) as [msg|a]; run; [reflexivity|].
  destruct (status_code a =? 200); run; [|reflexivity].
  destruct (resp_json a) as [msg|v]; run; [reflexivity|].
  destruct (py_get v "access_token" PNone) as [t|e]; run; [|reflexivity].
  destruct (truthy t); reflexivity.
Qed.

(** X11: _justifi_get_access_token posts at most one request, the token
    request, and none when a credential is missing; what it returns is never
    empty, whatever the body of the answer was. *)
Theorem X11_access_token_is_never_empty (self : provider) (h : env) (w : world) :
  (credentials_missing self = true ->
   snd (_justifi_get_access_token self h w) = w)
  /\ (credentials_missing self = false ->
      snd (_justifi_get_access_token self h w) = record (EvPost (token_request self)) w)
  /\ forall t, fst (_justifi_get_access_token self h w) = Ret t ->
               truthy t = true /\ credentials_missing self = false.
Proof.
  unfold _justifi_get_access_token.
  destruct (credentials_missing self); run.
  { repeat split; intros; discriminate. }
  split; [discriminate|].
  destruct (post_answer h (log w) (token_request self)) as [msg|a]; run;
    [split; [reflexivity | intros ? [=]]|].
  destruct (status_code a =? 200); run; [|split; [reflexivity | intros ? [=]]].
  destruct (resp_json a) as [msg|v]; run; [split; [reflexivity | intros ? [=]]|].
  destruct (py_get v "access_token" PNone) as [t|e]; run;
    [|split; [reflexivity | intros ? [=]]].
  destruct (truthy t) eqn:Ht; run; (split; [reflexivity|]).
  - intros t' [= <-]. auto.
  - intros ? [=].
Qed.

Lemma X11_access_token_witness :
  credentials_missing Samples.provider1 = false
  /\ snd (_justifi_get_access_token Samples.provider1 Samples.host_html initial)
     = record (EvPost (token_request Samples.provider1)) initial.
Proof.
  split; [reflexivity|].
  destruct (X11_access_token_is_never_empty Samples.provider1 Samples.host_html initial)
    as (_ & H & _).
  exact (H eq_refl).
Defined.

(** X12: what _justifi_create_checkout returns is always a dict that holds
    a non-empty 'id', so that its callers can read checkout['id']; every
    other answer of JustiFi ends in an exception. *)
Theorem X12_created_checkout_has_an_id
    (py : pylib) (self : provider_config) (amount : Z)
    (currency description origin_url : string) (h : env) (w : world) (c : pyval) :
  fst (_justifi_create_checkout py self amount currency description origin_url h w) = Ret c ->
  exists d, c = PDict d /\ truthy (dict_get d "id" PNone) = true.
Proof.
  unfold _justifi_create_checkout. unfold bind at 1.
  destruct (_justifi_get_access_token (base self) h w) as [[tok|e] w1]; [|intros [=]].
  destruct (truthy (char_field (justifi_account_id (base self)))); cbn [negb];
    [|intros [=]].
  unfold connection_guard. run.
  destruct (post_answer h (log w1) _) as [msg|a]; run; [intros [=]|].
  destruct (400 <=? status_code a); run; [intros [=]|].
  destruct (resp_json a) as [msg|[| | | | |dd]]; run; try solve [intros [=]].
  unfold dict_get.
  destruct (default (PDict dd) (dd !! "data")) as [| | | | |d]; run;
    try solve [intros [=]].
  destruct (truthy (default PNone (d !! "id"))) eqn:Hid; run; intros [= <-].
  exists d. auto.
Qed.

Lemma X12_created_checkout_witness :
  fst (_justifi_create_checkout SamplesMore.pylib_id SamplesMore.config1 1999
         "USD" "POS Payment" "https://shop.example" Samples.host_ok initial)
  = Ret Samples.token_body
  /\ exists d, Samples.token_body = PDict d /\ truthy (dict_get d "id" PNone) = true.
Proof.
  assert (fst (_justifi_create_checkout SamplesMore.pylib_id SamplesMore.config1 1999
                 "USD" "POS Payment" "https://shop.example" Samples.host_ok initial)
          = Ret Samples.token_body) as H by (vm_compute; reflexivity).
  split; [exact H|].
  exact (X12_created_checkout_has_an_id _ _ _ _ _ _ _ _ _ H).
Defined.

(** X13: without a Sub-Account ID no checkout is created:
    _justifi_create_checkout always ends in an exception, and the only
    request it can have posted is the token request, which it makes before
    it looks at the Sub-Account ID. *)
Theorem X13_no_checkout_without_sub_account
    (py : pylib) (self : provider_config) (amount : Z)
    (currency description origin_url : string) (h : env) (w : world) :
  truthy (char_field (justifi_account_id (base self))) = false ->
  let run := _justifi_create_checkout py self amount currency description origin_url h w in
  (exists e, fst run = Raise e)
  /\ (fst (_justifi_get_access_token (base self) h w) = Raise
        (ValidationError "JustiFi Client ID and Client Secret are required.")
      \/ posts (new_events w (snd run)) = [EvPost (token_request (base self))]).
Proof.
  intros Hacc. cbv zeta.
  assert (_justifi_create_checkout py self amount currency description origin_url h w
          = match _justifi_get_access_token (base self) h w with
            | (Ret _, w1) =>
              (Raise (ValidationError "JustiFi Sub-Account ID is required."), w1)
            | (Raise e, w1) => (Raise e, w1)
            end) as E.
  { unfold _justifi_create_checkout. unfold bind at 1.
    destruct (_justifi_get_access_token (base self) h w) as [[tok|e] w1];
      rewrite ?Hacc; reflexivity. }
  rewrite E.
  destruct (access_token_world (base self) h w) as (Hm & Hp).
  destruct (credentials_missing (base self)) eqn:Hc.
  - rewrite (Hm eq_refl). cbn. split; eauto.
  - specialize (Hp eq_refl).
    destruct (_justifi_get_access_token (base self) h w) as [[tok|e] w1];
      cbn [snd fst] in *; subst w1; (split; [eauto|]); right;
      unfold new_events, record; cbn [log snd]; rewrite drop_app_length; reflexivity.
Qed.

Lemma X13_no_checkout_witness :
  let self :=
    {| base := {| provider_id := 2; provider_state := "enabled";
                  justifi_client_id := Some "client"; justifi_client_secret := Some "secret";
                  justifi_account_id := None; justifi_webhook_secret := None |};
       code := "justifi"; justifi_payment_method_group_id := None |} in
  truthy (char_field (justifi_account_id (base self))) = false
  /\ exists e,
       fst (_justifi_create_checkout SamplesMore.pylib_id self 1999 "USD" "POS Payment"
              "https://shop.example" Samples.host_ok initial) = Raise e.
Proof.
  cbv zeta. split; [reflexivity|].
  apply (X13_no_checkout_without_sub_account SamplesMore.pylib_id
           {| base := {| provider_id := 2; provider_state := "enabled";
                         justifi_client_id := Some "client";
                         justifi_client_secret := Some "secret";
                         justifi_account_id := None; justifi_webhook_secret := None |};
              code := "justifi"; justifi_payment_method_group_id := None |}
           1999 "USD" "POS Payment" "https://shop.example" Samples.host_ok initial).
  reflexivity.
Defined.

Lemma in_new_events (w w' : world) (l : list event) (e : event) :
  log w' = log w ++ l -> In e (new_events w w') -> In e l.
Proof. intros E. rewrite (new_events_of_log _ _ _ E). auto. Qed.

(** X14: _justifi_get_web_component_token never sends the Sub-Account
    header, neither with the token request nor with the web component token
    request, and the token it returns is never empty. *)
Theorem X14_web_component_token_without_sub_account
    (self : provider) (checkout_id : string) (h : env) (w : world) :
  (forall e,
     In e (new_events w (snd (_justifi_get_web_component_token self checkout_id h w))) ->
     without_sub_account e)
  /\ (forall t,
        fst (_justifi_get_web_component_token self checkout_id h w) = Ret t ->
        truthy t = true).
Proof.
  assert (without_sub_account (EvPost (token_request self))) as Htok
    by (intros r [= <-]; reflexivity).
  assert (forall tok,
             without_sub_account
               (EvPost (web_component_token_request self checkout_id tok))) as Hwc
    by (intros tok r [= <-]; reflexivity).
  destruct (access_token_log self h w) as (l & El & Hl).
  assert (forall e, In e l -> without_sub_account e) as Hin.
  { intros e He. destruct Hl as [-> | ->]; [destruct He|].
    destruct He as [<- | []]. exact Htok. }
  assert (forall tok w1,
             log w1 = log w ++ l ->
             forall e',
               In e' (new_events w
                        (record (EvPost (web_component_token_request self checkout_id tok))
                           w1)) ->
               without_sub_account e') as Hleaf.
  { intros tok w1 E1 e' He'.
    assert (log (record (EvPost (web_component_token_request self checkout_id tok)) w1)
            = log w ++ (l ++ [EvPost (web_component_token_request self checkout_id tok)]))
      as E by (cbn; rewrite E1, app_assoc; reflexivity).
    apply (in_new_events _ _ _ _ E) in He'. apply in_app_or in He' as [He' | [<- | []]];
      auto. }
  split.
  - unfold _justifi_get_web_component_token. unfold bind at 1.
    destruct (_justifi_get_access_token self h w) as [[tok|e] w1]; cbn [snd fst] in *.
    2: { intros e' He'. exact (Hin _ (in_new_events _ _ _ _ El He')). }
    unfold connection_guard. run.
    destruct (post_answer h (log w1) _) as [msg|a]; run;
      [exact (Hleaf tok w1 El)|].
    destruct (status_code a =? 200); run;
      [|exact (Hleaf tok w1 El)].
    destruct (resp_json a) as [msg|v]; run;
      [exact (Hleaf tok w1 El)|].
    destruct (py_get v "access_token" PNone) as [t|e]; run;
      [|exact (Hleaf tok w1 El)].
    destruct (truthy t); run; exact (Hleaf tok w1 El).
  - unfold _justifi_get_web_component_token. unfold bind at 1.
    destruct (_justifi_get_access_token self h w) as [[tok|e] w1]; [|intros t [=]].
    unfold connection_guard. run.
    destruct (post_answer h (log w1) _) as [msg|a]; run; [intros t [=]|].
    destruct (status_code a =? 200); run; [|intros t [=]].
    destruct (resp_json a) as [msg|v]; run; [intros t [=]|].
    destruct (py_get v "access_token" PNone) as [t|e]; run; [|intros t [=]].
    destruct (truthy t) eqn:Ht; run; intros t' [= <-]. exact Ht.
Qed.

(** X15: the constraint on the Sub-Account ID passes exactly when every
    JustiFi provider of the recordset whose Sub-Account ID is set has one
    that starts with 'acc_'; providers with another code or without an id
    are not looked at, and a failing check raises ValidationError. *)
Theorem X15_account_id_constraint (self : list provider_config) :
  (_check_justifi_account_id self = Ret tt <-> Forall account_id_ok self)
  /\ (_check_justifi_account_id self = Ret tt
      \/ exists m, _check_justifi_account_id self = Raise (ValidationError m)).
Proof.
  induction self as [|p rest [IH1 IH2]]; cbn [_check_justifi_account_id].
  - split; [|auto]. split; [constructor | reflexivity].
  - assert (forall s, truthy (PStr s) = negb (String.eqb s "")) as Htruthy by reflexivity.
    unfold startswith.
    destruct (String.eqb_spec (code p) "justifi") as [Hcode | Hcode]; cbn [andb].
    2: { split; [|exact IH2]. rewrite IH1, Forall_cons. split; [|tauto].
         intros Hrest. split; [|exact Hrest]. intros Hc. contradiction. }
    destruct (justifi_account_id (base p)) as [s|] eqn:Hacc; cbn [char_field truthy].
    2: { split; [|exact IH2]. rewrite IH1, Forall_cons. split; [|tauto].
         intros Hrest. split; [|exact Hrest]. intros _ s Hs. rewrite Hacc in Hs.
         discriminate Hs. }
    destruct (String.eqb_spec s "") as [-> | Hs]; cbn [negb default from_option id].
    { split; [|exact IH2]. rewrite IH1, Forall_cons. split; [|tauto].
      intros Hrest. split; [|exact Hrest]. intros _ s Hs Hne. rewrite Hacc in Hs.
      injection Hs as <-. contradiction. }
    destruct (String.prefix "acc_" s) eqn:Hpre; cbn [negb].
    + split; [|exact IH2]. rewrite IH1, Forall_cons. split; [|tauto].
      intros Hrest. split; [|exact Hrest]. intros _ s' Hs' _. rewrite Hacc in Hs'.
      injection Hs' as <-. exact Hpre.
    + split; [|eauto]. split; [discriminate|].
      intros [Hp _]%Forall_cons. specialize (Hp Hcode s Hacc Hs). congruence.
Qed.

(** X21: the constraint on the Payment Method Group ID passes exactly when
    every JustiFi provider of the recordset whose group id is set has one
    that starts with 'pmg_'; a failing check raises ValidationError. *)
Theorem X21_payment_method_group_id_constraint (self : list provider_config) :
  (_check_justifi_payment_method_group_id self = Ret tt <-> Forall group_id_ok self)
  /\ (_check_justifi_payment_method_group_id self = Ret tt
      \/ exists m, _check_justifi_payment_method_group_id self = Raise (ValidationError m)).
Proof.
  induction self as [|p rest [IH1 IH2]]; cbn [_check_justifi_payment_method_group_id].
  - split; [|auto]. split; [constructor | reflexivity].
  - unfold startswith.
    assert (Forall group_id_ok rest -> group_id_ok p -> Forall group_id_ok (p :: rest))
      as Hcons by (intros; constructor; assumption).
    assert (Forall group_id_ok (p :: rest) -> Forall group_id_ok rest)
      as Htail by (intros [_ Hr]%Forall_cons; exact Hr).
    destruct (String.eqb_spec (code p) "justifi") as [Hcode | Hcode]; cbn [andb].
    2: { split; [|exact IH2]. rewrite IH1. split; [|exact Htail].
         intros Hrest. apply Hcons; [exact Hrest|]. intros Hc. contradiction. }
    destruct (justifi_payment_method_group_id p) as [s|] eqn:Hid;
      cbn [char_field truthy].
    2: { split; [|exact IH2]. rewrite IH1. split; [|exact Htail].
         intros Hrest. apply Hcons; [exact Hrest|]. intros _ s Hs. rewrite Hid in Hs.
         discriminate Hs. }
    destruct (String.eqb_spec s "") as [-> | Hs]; cbn [negb default from_option id].
    { split; [|exact IH2]. rewrite IH1. split; [|exact Htail].
      intros Hrest. apply Hcons; [exact Hrest|]. intros _ s Hs Hne. rewrite Hid in Hs.
      injection Hs as <-. contradiction. }
    destruct (String.prefix "pmg_" s) eqn:Hpre; cbn [negb].
    + split; [|exact IH2]. rewrite IH1. split; [|exact Htail].
      intros Hrest. apply Hcons; [exact Hrest|]. intros _ s' Hs' _. rewrite Hid in Hs'.
      injection Hs' as <-. exact Hpre.
    + split; [|eauto]. split; [discriminate|].
      intros [Hp _]%Forall_cons. specialize (Hp Hcode s Hid Hs). congruence.
Qed.

End ProviderMoreFacts.

(* ===================================================================== *)
(** * More on the point of sale *)
(* ===================================================================== *)

Section PosMore.

Import Provider ProviderMore.

Lemma STATUS_MAPPING_done (s : string) :
  STATUS_MAPPING !! s = Some "done" <-> s = "completed" \/ s = "succeeded".
Proof.
  unfold STATUS_MAPPING, STATUS_MAPPING_items. cbn [list_to_map foldr fst snd uncurry].
  rewrite !lookup_insert. repeat case_decide; subst; rewrite ?lookup_empty;
    split; intros Hx; try discriminate Hx; auto; destruct Hx; congruence.
Qed.

Lemma STATUS_MAPPING_pending (s : string) :
  STATUS_MAPPING !! s = Some "pending" <-> s = "pending" \/ s = "created".
Proof.
  unfold STATUS_MAPPING, STATUS_MAPPING_items. cbn [list_to_map foldr fst snd uncurry].
  rewrite !lookup_insert. repeat case_decide; subst; rewrite ?lookup_empty;
    split; intros Hx; try discriminate Hx; auto; destruct Hx; congruence.
Qed.

Lemma STATUS_MAPPING_failed (s : string) :
  STATUS_MAPPING !! s = Some "error" \/ STATUS_MAPPING !! s = Some "cancel"
  <-> s = "failed" \/ s = "canceled".
Proof.
  unfold STATUS_MAPPING, STATUS_MAPPING_items. cbn [list_to_map foldr fst snd uncurry].
  rewrite !lookup_insert. repeat case_decide; subst; rewrite ?lookup_empty;
    split; intros Hx; auto; destruct Hx; try discriminate; congruence.
Qed.

Lemma eq_str_or (s a b : string) :
  eq_str (PStr s) a || eq_str (PStr s) b = true <-> s = a \/ s = b.
Proof.
  cbn [eq_str]. rewrite orb_true_iff, !String.eqb_eq. reflexivity.
Qed.

(** The flags of a status dict against the status table. *)
Lemma status_dict_flags (checkout_id : string) (status payment_id : pyval) :
  let d := status_dict checkout_id status payment_id in
  d !! "status" = Some status
  /\ flag d "is_paid" = (eq_str status "completed" || eq_str status "succeeded")
  /\ flag d "is_pending" = (eq_str status "pending" || eq_str status "created")
  /\ flag d "is_failed" = (eq_str status "failed" || eq_str status "canceled").
Proof. cbv zeta. repeat split; reflexivity. Qed.

(** X17: the flags of a status answer agree with the status table and
    exclude one another: whenever justifi_payment_status answers with a
    status dict, is_paid holds exactly for the statuses the table maps to
    'done', is_pending for those it maps to 'pending', is_failed for those it
    maps to 'error' or 'cancel', at most one of the three holds, and none
    holds for a status that is not a string. *)
Theorem X17_status_flags_follow_the_table
    (g : reads) (checkout_id : string) (h : env) (w w' : world) (d : gmap string pyval) :
  PosModelMore.justifi_payment_status g checkout_id h w = (Ret (RpcDict d), w') ->
  (forall s, d !! "status" = Some (PStr s) ->
     (flag d "is_paid" = true <-> STATUS_MAPPING !! s = Some "done")
     /\ (flag d "is_pending" = true <-> STATUS_MAPPING !! s = Some "pending")
     /\ (flag d "is_failed" = true
         <-> STATUS_MAPPING !! s = Some "error" \/ STATUS_MAPPING !! s = Some "cancel"))
  /\ (flag d "is_paid" && flag d "is_pending" = false
      /\ flag d "is_paid" && flag d "is_failed" = false
      /\ flag d "is_pending" && flag d "is_failed" = false)
  /\ (forall v, d !! "status" = Some v -> type_name v <> "str" ->
      flag d "is_paid" = false /\ flag d "is_pending" = false /\ flag d "is_failed" = false).
Proof.
  intros Hrun.
  assert (exists status payment_id, d = status_dict checkout_id status payment_id)
    as (status & payment_id & ->).
  { revert Hrun. unfold PosModelMore.justifi_payment_status. run.
    destruct (search_provider h (log w)) as [provider|]; run; [|intros [=]].
    destruct (_justifi_get_checkout g provider checkout_id h _) as [[c|e] w2]; run;
      [|intros [=]].
    destruct (py_get c "status" (PStr "")) as [status|e]; run; [|intros [=]].
    destruct (py_get c "successful_payment_id" (PStr "")) as [payment_id|e]; run;
      intros [=]. eauto. }
  destruct (status_dict_flags checkout_id status payment_id) as (Hs & Hpaid & Hpend & Hfail).
  cbv zeta in *. rewrite Hpaid, Hpend, Hfail, Hs. clear Hpaid Hpend Hfail Hs.
  split; [|split].
  - intros s [= ->]. rewrite STATUS_MAPPING_done, STATUS_MAPPING_pending,
      STATUS_MAPPING_failed, !eq_str_or. tauto.
  - destruct status as [| | |s| |]; try (repeat split; reflexivity). cbn [eq_str].
    repeat split;
      repeat match goal with
             | |- context [String.eqb s ?x] => destruct (String.eqb_spec s x); subst
             end; cbn; try reflexivity; discriminate.
  - intros v [= <-] Hty. destruct status; try (repeat split; reflexivity).
    contradiction Hty. reflexivity.
Qed.

Lemma X17_status_flags_witness :
  let run :=
    PosModelMore.justifi_payment_status SamplesMore.reads_ok "cho_2" Samples.host_ok initial in
  let d := status_dict "cho_2" (PStr "failed") (PStr "") in
  run = (Ret (RpcDict d), snd run)
  /\ (flag d "is_failed" = true
      <-> STATUS_MAPPING !! "failed" = Some "error"
          \/ STATUS_MAPPING !! "failed" = Some "cancel").
Proof.
  cbv zeta.
  assert (PosModelMore.justifi_payment_status SamplesMore.reads_ok "cho_2"
            Samples.host_ok initial
          = (Ret (RpcDict (status_dict "cho_2" (PStr "failed") (PStr ""))),
             snd (PosModelMore.justifi_payment_status SamplesMore.reads_ok "cho_2"
                    Samples.host_ok initial))) as Hrun by (vm_compute; reflexivity).
  split; [exact Hrun|].
  destruct (X17_status_flags_follow_the_table _ _ _ _ _ _ Hrun) as (H & _).
  exact (proj2 (proj2 (H "failed" eq_refl))).
Defined.

(** X18: an answer to terminal-pay with a status of 400 or more is never
    taken for a success: when the token is obtained and the pay request is
    answered with such a status, _justifi_send_to_terminal and
    _send_to_terminal raise an exception that carries the 'message' of the
    'error' object of the body, or 'Failed to send payment to terminal' when
    the body has none. *)
Theorem X18_terminal_error_status_raises
    (h : env) (w w1 : world) (provider : Host.provider)
    (terminal_id : string) (checkout_id tok : pyval) (a : http_response) :
  _justifi_get_access_token provider h w = (Ret tok, w1) ->
  400 <= status_code a ->
  let key := uuid_str (uuid_of_random (os_urandom h (draws w1))) in
  let w2 := {| log := log w1 ++ [EvUrandom (draws w1)]; draws := S (draws w1) |} in
  (post_answer h (log w2) (PosModel.pay_request provider terminal_id checkout_id tok key)
   = PostAnswers a ->
   fst (PosModel._justifi_send_to_terminal provider terminal_id checkout_id h w)
   = Raise (PlainException (terminal_error_message a)))
  /\ (post_answer h (log w2)
        (PosController.pay_request provider terminal_id checkout_id tok key)
      = PostAnswers a ->
      fst (PosController._send_to_terminal provider terminal_id checkout_id h w)
      = Raise (PlainException (terminal_error_message a)))
  /\ (terminal_error_message a = PStr "Failed to send payment to terminal"
      \/ exists body error,
           resp_json a = inr (PDict body) /\ body !! "error" = Some (PDict error)
           /\ error !! "message" = Some (terminal_error_message a)).
Proof.
  intros Htoken Hstatus. cbv zeta.
  assert (terminal_pay_answer a h = fun w0 =>
            (Raise (PlainException (terminal_error_message a)), w0)) as Hanswer.
  { unfold terminal_pay_answer.
    replace (400 <=? status_code a) with true by (symmetry; apply Z.leb_le; exact Hstatus).
    reflexivity. }
  split; [|split].
  - intros Hpost.
    rewrite (model_send_run h w w1 provider terminal_id checkout_id tok Htoken), Hpost,
      Hanswer. reflexivity.
  - intros Hpost.
    rewrite (controller_send_run h w w1 provider terminal_id checkout_id tok Htoken), Hpost,
      Hanswer. reflexivity.
  - unfold terminal_error_message.
    destruct (resp_json a) as [msg|[| | | | |body]]; auto.
    destruct (body !! "error") as [[| | | | |error]|] eqn:Herr; auto.
    destruct (error !! "message") as [m|] eqn:Hm; cbn; [|auto].
    right. exists body, error. auto.
Qed.

Lemma X18_terminal_error_witness :
  fst (PosModel._justifi_send_to_terminal Samples.provider1 "trm_1" (PStr "cho_1")
         SamplesMore.host_terminal_busy initial)
  = Raise (PlainException (PStr "Terminal is busy"))
  /\ fst (PosController._send_to_terminal Samples.provider1 "trm_1" (PStr "cho_1")
            SamplesMore.host_terminal_busy initial)
     = Raise (PlainException (PStr "Terminal is busy")).
Proof.
  assert (_justifi_get_access_token Samples.provider1 SamplesMore.host_terminal_busy initial
          = (Ret (PStr "tok"), record (EvPost (token_request Samples.provider1)) initial))
    as Htoken by (vm_compute; reflexivity).
  assert (400 <= status_code SamplesMore.busy_answer) as Hstatus by (cbn; lia).
  destruct (X18_terminal_error_status_raises _ _ _ _ "trm_1" (PStr "cho_1") _ _
              Htoken Hstatus) as (Hmodel & Hcontroller & _).
  split; [apply Hmodel|apply Hcontroller]; vm_compute; reflexivity.
Defined.

End PosMore.

(* ===================================================================== *)
(** * The completion route *)
(* ===================================================================== *)

Section CompleteFacts.

Import Provider ProviderMore Transaction Complete.

(** What [_justifi_get_checkout] adds to the log: the token request. *)
Lemma get_checkout_log
    (g : reads) (self : provider) (checkout_id : string) (h : env) (w : world) :
  exists l,
    log (snd (_justifi_get_checkout g self checkout_id h w)) = log w ++ l
    /\ (l = [] \/ l = [EvPost (token_request self)]).
Proof.
  destruct (access_token_log self h w) as (l & E & Hl). exists l. split; [|exact Hl].
  unfold _justifi_get_checkout. unfold bind at 1.
  destruct (_justifi_get_access_token self h w) as [[tok|e] w1]; cbn [snd] in *; [|exact E].
  rewrite <- E. unfold connection_guard, requests_get. run.
  destruct (get_answer g (log w1) _ _) as [msg|a]; run; [reflexivity|].
  destruct (400 <=? status_code a); run; [reflexivity|].
  destruct (resp_json a) as [msg|v]; run; [reflexivity|].
  destruct (py_get v "data" v); reflexivity.
Qed.

Lemma no_new_events (w : world) : new_events w w = [].
Proof. apply new_events_app. symmetry. apply app_nil_r. Qed.

(** The events of a run that verified the checkout and then processed it. *)
Lemma verified_then_processed
    (t : transaction) (r : http_request) (w w1 w2 : world) (l1 l2 : list event) :
  log w1 = log w ++ l1 -> l1 = [] \/ l1 = [EvPost r] ->
  log w2 = log w1 ++ l2 -> Forall (fun e => touched e = Some (tx_id t)) l2 ->
  forall e i, In e (new_events w w2) -> touched e = Some i -> tx_id t = i.
Proof.
  intros E1 Hl1 E2 Hl2 e i Hin Hi.
  rewrite (new_events_app w (l1 ++ l2) w2) in Hin
    by (rewrite E2, E1, app_assoc; reflexivity).
  apply in_app_or in Hin. destruct Hin as [Hin|Hin].
  - destruct Hl1 as [-> | ->]; [destruct Hin|].
    destruct Hin as [<-|[]]. discriminate Hi.
  - rewrite List.Forall_forall in Hl2. specialize (Hl2 e Hin). congruence.
Qed.

Local Ltac quiet_run :=
  autounfold with run; cbn -[new_events String.eqb];
  eexists; split; [reflexivity|]; rewrite ?no_new_events; intros ? ? [].

Local Ltac still_run :=
  autounfold with run; cbn -[new_events String.eqb];
  eexists; split; [reflexivity|]; rewrite ?no_new_events; intros ? [].

(** X19: justifi_complete never raises and always answers the redirect to
    /payment/status; whatever it does to a transaction, it does to the one
    that the search by provider_reference returned for the non-empty
    checkout_id of the form data. *)
Theorem X19_complete_always_redirects
    (g : reads) (kwargs : gmap string string) (h : env) (w : world) :
  fst (justifi_complete g kwargs h w) = Ret (Redirect "/payment/status")
  /\ forall e i,
       In e (new_events w (snd (justifi_complete g kwargs h w))) -> touched e = Some i ->
       exists cid t,
         kwargs !! "checkout_id" = Some cid /\ cid <> ""
         /\ search_reference g (log w) cid = Some t /\ tx_id t = i.
Proof.
  enough (exists wf,
            justifi_complete g kwargs h w = (Ret (Redirect "/payment/status"), wf)
            /\ forall e i,
                 In e (new_events w wf) -> touched e = Some i ->
                 exists cid t,
                   kwargs !! "checkout_id" = Some cid /\ cid <> ""
                   /\ search_reference g (log w) cid = Some t /\ tx_id t = i)
    as (wf & -> & H) by (split; [reflexivity|exact H]).
  unfold justifi_complete, form_value.
  destruct (kwargs !! "checkout_id") as [cid|] eqn:Hcid;
    cbn [default from_option id truthy negb]; [|quiet_run].
  destruct (String.eqb_spec cid "") as [->|Hne]; cbn [negb]; [quiet_run|].
  unfold try_except at 1. unfold bind at 1. unfold reference_search. cbv beta iota.
  destruct (search_reference g (log w) cid) as [t|] eqn:Hsearch; [|quiet_run].
  unfold bind at 1. unfold try_except at 1. unfold bind at 1.
  destruct (get_checkout_log g (provider_of g t) cid h w) as (l1 & E1 & Hl1).
  destruct (_justifi_get_checkout g (provider_of g t) cid h w) as [[c|e] w1];
    cbn [snd] in E1; cbv beta iota.
  - destruct c as [| | | | |d];
      try (autounfold with run; cbn -[new_events String.eqb]; exists w1;
           (split; [reflexivity|]); intros e' i Hin Hi; exists cid, t;
           (split; [reflexivity|split; [exact Hne|split; [exact Hsearch|]]]);
           eapply (verified_then_processed t _ w w1 w1 l1 []); eauto;
           symmetry; apply app_nil_r).
    destruct (kwargs !! "payment_id") as [pid|]; cbn [truthy];
      [destruct (negb (String.eqb pid ""))|];
      autounfold with run;
      cbn -[new_events String.eqb _justifi_process_payment_data];
      match goal with
      | |- context [_justifi_process_payment_data t ?x h w1] =>
        destruct (process_touches_self h t x w1) as (l2 & E2 & Hl2 & _);
        destruct (_justifi_process_payment_data t x h w1) as [[[]|e2] w2]
      end;
      cbn [snd] in E2; eexists; (split; [reflexivity|]); intros e' i Hin Hi;
      exists cid, t;
      (split; [reflexivity|split; [exact Hne|split; [exact Hsearch|]]]);
      eapply (verified_then_processed t _ w w1 w2 l1 l2); eauto.
  - exists w1.
    split; [destruct (is_ValidationError e); reflexivity|].
    intros e' i Hin Hi. exists cid, t.
    split; [reflexivity|split; [exact Hne|split; [exact Hsearch|]]].
    eapply (verified_then_processed t _ w w1 w1 l1 []); eauto.
    symmetry; apply app_nil_r.
Qed.

(** The transitions of a run that verified the checkout and then processed
    a dict whose status can be looked up. *)
Lemma processed_transitions
    (t : transaction) (d : gmap string pyval) (st : string) (h : env)
    (w w1 : world) (l1 : list event) (r : http_request) :
  log w1 = log w ++ l1 -> l1 = [] \/ l1 = [EvPost r] ->
  status_lookup (dict_get d "status" (PStr "")) = Ret st ->
  (st = "error" -> dict_or_absent d "error") ->
  exists w2,
    _justifi_process_payment_data t (PDict d) h w1 = (Ret tt, w2)
    /\ transitions (new_events w w2) = matching_transition (tx_id t) st d.
Proof.
  intros E1 Hl1 Hst Herr.
  destruct (process_dict_run t d st h w1 Hst Herr) as (w2 & l2 & Hrun & E2 & Htr & _).
  exists w2. split; [exact Hrun|].
  rewrite (new_events_app w (l1 ++ l2) w2) by (rewrite E2, E1, app_assoc; reflexivity).
  rewrite transitions_app, Htr. destruct Hl1 as [-> | ->]; reflexivity.
Qed.

(** Setting another key leaves the status and the error of a dict. *)
Lemma setitem_keeps
    (c : gmap string pyval) (k : string) (v : pyval) (st : string) (i : Z) :
  k <> "status" -> k <> "error" ->
  dict_get (<[k := v]> c) "status" (PStr "") = dict_get c "status" (PStr "")
  /\ (dict_or_absent c "error" -> dict_or_absent (<[k := v]> c) "error")
  /\ matching_transition i st (<[k := v]> c) = matching_transition i st c.
Proof.
  intros Hs He. unfold dict_get, dict_or_absent, matching_transition, nested_get.
  rewrite !lookup_insert_ne by congruence. auto.
Qed.

(** X20: justifi_complete has no test of the state of the transaction: when
    the form data hold a non-empty checkout id, the search by
    provider_reference returns a transaction for it and JustiFi's checkout
    is retrieved as a dict whose status can be looked up and whose 'error'
    member, if the status maps to 'error', is absent or a dict, the calls
    made on that transaction are those matching that status (_set_done and
    post-processing, _set_pending, _set_error or _set_canceled), whatever
    its state, also on one that is 'done' or 'cancel' (which the webhook
    handlers leave alone). *)
Theorem X20_complete_has_no_state_guard
    (g : reads) (kwargs : gmap string string) (h : env) (w w1 : world)
    (cid : string) (t : transaction) (c : gmap string pyval) (st : string) :
  kwargs !! "checkout_id" = Some cid -> cid <> "" ->
  search_reference g (log w) cid = Some t ->
  _justifi_get_checkout g (provider_of g t) cid h w = (Ret (PDict c), w1) ->
  status_lookup (dict_get c "status" (PStr "")) = Ret st ->
  (st = "error" -> dict_or_absent c "error") ->
  transitions (new_events w (snd (justifi_complete g kwargs h w)))
  = matching_transition (tx_id t) st c.
Proof.
  intros Hcid Hne Hsearch Hget Hst Herr.
  destruct (get_checkout_log g (provider_of g t) cid h w) as (l1 & E1 & Hl1).
  rewrite Hget in E1. cbn [snd] in E1.
  unfold justifi_complete, form_value. rewrite Hcid.
  cbn [default from_option id truthy negb].
  destruct (String.eqb_spec cid "") as [->|_]; [contradiction|]. cbn [negb].
  unfold try_except at 1. unfold bind at 1. unfold reference_search. cbv beta iota.
  rewrite Hsearch. unfold bind at 1. unfold try_except at 1. unfold bind at 1.
  rewrite Hget.
  destruct (setitem_keeps c "checkout_id" (PStr cid) st (tx_id t))
    as (Hs1 & He1 & Hm1); [discriminate..|].
  destruct (kwargs !! "payment_id") as [pid|]; cbn [truthy];
    [destruct (negb (String.eqb pid ""));
     [destruct (setitem_keeps (<["checkout_id" := PStr cid]> c) "successful_payment_id"
                  (PStr pid) st (tx_id t)) as (Hs2 & He2 & Hm2); [discriminate..|]|]|];
    autounfold with run;
    cbn -[new_events String.eqb _justifi_process_payment_data transitions
          matching_transition];
    match goal with
    | |- context [_justifi_process_payment_data t (PDict ?d) h w1] =>
      destruct (processed_transitions t d st h w w1 l1 _ E1 Hl1) as (w2 & Hrun & Htr);
        [congruence|tauto|rewrite Hrun]
    end;
    cbn [snd fst]; rewrite Htr; congruence.
Qed.

Lemma X20_complete_witness :
  Samples.tx_done.(tx_state) = "done"
  /\ transitions
       (new_events initial
          (snd (justifi_complete SamplesMore.reads_ok {[ "checkout_id" := "cho_2" ]}
                  Samples.host_ok initial)))
     = [EvSetError 8 (PStr "Payment failed")].
Proof.
  split; [reflexivity|].
  transitivity (matching_transition 8 "error"
                  {[ "id" := PStr "cho_2"; "status" := PStr "failed" ]});
    [|vm_compute; reflexivity].
  apply (X20_complete_has_no_state_guard SamplesMore.reads_ok {[ "checkout_id" := "cho_2" ]}
           Samples.host_ok initial
           (record (EvPost (token_request Samples.provider1)) initial)
           "cho_2" Samples.tx_done
           {[ "id" := PStr "cho_2"; "status" := PStr "failed" ]} "error").
  - vm_compute; reflexivity.
  - discriminate.
  - reflexivity.
  - vm_compute; reflexivity.
  - vm_compute; reflexivity.
  - intros _. vm_compute. exact I.
Defined.

(** When JustiFi does not hand out the checkout, [_justifi_get_checkout]
    raises. *)
Lemma get_checkout_unavailable
    (g : reads) (self : provider) (checkout_id : string) (h : env) (w : world) :
  checkout_unavailable g ->
  exists e, fst (_justifi_get_checkout g self checkout_id h w) = Raise e.
Proof.
  intros Hdown. unfold _justifi_get_checkout. unfold bind at 1.
  destruct (_justifi_get_access_token self h w) as [[tok|e] w1]; [|eauto].
  unfold connection_guard, requests_get. run.
  specialize (Hdown (log w1) (CHECKOUTS_URL +:+ "/" +:+ checkout_id)
                (checkout_headers self tok)).
  destruct (get_answer g (log w1) _ _) as [msg|a]; run; [eauto|].
  replace (400 <=? status_code a) with true by (symmetry; apply Z.leb_le; exact Hdown).
  run. eauto.
Qed.

(** X22: a checkout that cannot be verified changes nothing: when every GET
    to JustiFi fails or is answered with a status of 400 or more,
    justifi_complete redirects without a call on any transaction, whatever
    the form data says about the payment. *)
Theorem X22_unverified_checkout_changes_nothing
    (g : reads) (kwargs : gmap string string) (h : env) (w : world) :
  checkout_unavailable g ->
  fst (justifi_complete g kwargs h w) = Ret (Redirect "/payment/status")
  /\ forall e, In e (new_events w (snd (justifi_complete g kwargs h w))) ->
               touched e = None.
Proof.
  intros Hdown.
  enough (exists wf,
            justifi_complete g kwargs h w = (Ret (Redirect "/payment/status"), wf)
            /\ forall e, In e (new_events w wf) -> touched e = None)
    as (wf & -> & H) by (split; [reflexivity|exact H]).
  unfold justifi_complete, form_value.
  destruct (kwargs !! "checkout_id") as [cid|] eqn:Hcid;
    cbn [default from_option id truthy negb]; [|still_run].
  destruct (String.eqb_spec cid "") as [->|Hne]; cbn [negb]; [still_run|].
  unfold try_except at 1. unfold bind at 1. unfold reference_search. cbv beta iota.
  destruct (search_reference g (log w) cid) as [t|] eqn:Hsearch; [|still_run].
  unfold bind at 1. unfold try_except at 1. unfold bind at 1.
  destruct (get_checkout_log g (provider_of g t) cid h w) as (l1 & E1 & Hl1).
  destruct (get_checkout_unavailable g (provider_of g t) cid h w Hdown) as (e & He).
  destruct (_justifi_get_checkout g (provider_of g t) cid h w) as [[c|e'] w1];
    cbn [fst snd] in E1, He; [discriminate He|]. cbv beta iota.
  exists w1. split; [destruct (is_ValidationError e'); reflexivity|].
  intros e0 Hin. rewrite (new_events_app w l1 w1 E1) in Hin.
  destruct Hl1 as [-> | ->]; [destruct Hin|].
  destruct Hin as [<-|[]]. reflexivity.
Qed.

Lemma X22_unverified_checkout_witness :
  fst (justifi_complete SamplesMore.reads_down
         {[ "checkout_id" := "cho_2"; "payment_id" := "py_1" ]} Samples.host_ok initial)
  = Ret (Redirect "/payment/status")
  /\ new_events initial
       (snd (justifi_complete SamplesMore.reads_down
               {[ "checkout_id" := "cho_2"; "payment_id" := "py_1" ]}
               Samples.host_ok initial))
     = [EvPost (token_request Samples.provider1)].
Proof.
  assert (checkout_unavailable SamplesMore.reads_down) as Hdown by (intros l url headers; exact I).
  split; [|vm_compute; reflexivity].
  exact (proj1 (X22_unverified_checkout_changes_nothing SamplesMore.reads_down
                  {[ "checkout_id" := "cho_2"; "payment_id" := "py_1" ]}
                  Samples.host_ok initial Hdown)).
Defined.

End CompleteFacts.

